(** * AutoMD / AutoAPI: endpoint-to-specification resolution pipeline

    A shallow embedding of [automd/automd.py] (class [AutoMD]) and
    [autoapi/autoapi.py] (class [AutoAPI]) and the properties of the
    pipeline stated in the specification.

    Python dictionaries keep insertion order, so they are association
    lists with Python's update discipline (a key that is already present
    is overwritten in place, a new key is appended).  Exceptions are the
    error side of a result type.  Strings are ASCII. *)

From Stdlib Require Import ZArith String Ascii List DecimalString.
From stdpp Require Import base decidable option list strings gmap sets.

Local Open Scope string_scope.
Local Open Scope list_scope.

(** ** Exceptions *)

Inductive pyerror : Type :=
  | AttributeError (obj attr : string)
  | KeyError (key : string)
  | TypeError (msg : string).


Inductive result (A : Type) : Type :=
  | Ok (a : A)
  | Raise (e : pyerror).
Arguments Ok {A} a.
Arguments Raise {A} e.

Definition bind {A B : Type} (r : result A) (k : A -> result B) : result B :=
  match r with
  | Ok a => k a
  | Raise e => Raise e
  end.

Notation "'let*' x ':=' r 'in' k" := (bind r (fun x => k))
  (at level 10, x pattern, r at level 100, k at level 200).

(** A [for] loop whose body may raise: the first exception ends the loop. *)
Fixpoint for_each {A S : Type} (body : S -> A -> result S) (xs : list A) (s : S)
  : result S :=
  match xs with
  | [] => Ok s
  | x :: rest => let* s' := body s x in for_each body rest s'
  end.

(** ** Python dictionaries *)

Abbreviation pydict K V := (list (K * V)).

Section PyDict.
Context {K V : Type} `{EqDecision K}.

(** [d.get(k)] *)
Fixpoint dict_get (k : K) (d : pydict K V) : option V :=
  match d with
  | [] => None
  | (k', v) :: rest => if decide (k = k') then Some v else dict_get k rest
  end.

(** [k in d] *)
Definition dict_mem (k : K) (d : pydict K V) : bool :=
  match dict_get k d with
  | Some _ => true
  | None => false
  end.

(** [d[k] = v] *)
Fixpoint dict_set (k : K) (v : V) (d : pydict K V) : pydict K V :=
  match d with
  | [] => [(k, v)]
  | (k', v') :: rest =>
      if decide (k = k') then (k, v) :: rest else (k', v') :: dict_set k v rest
  end.

(** [d.keys()] *)
Definition dict_keys (d : pydict K V) : list K := map fst d.

(** [d.update(other)] *)
Definition dict_update (d other : pydict K V) : pydict K V :=
  fold_left (fun acc kv => dict_set (fst kv) (snd kv) acc) other d.

(** A well-formed dictionary holds each key once. *)
Definition dict_wf (d : pydict K V) : Prop := NoDup (dict_keys d).

End PyDict.

(** ** Python strings *)

Definition is_ascii_lower (c : ascii) : bool :=
  let n := nat_of_ascii c in (97 <=? n)%nat && (n <=? 122)%nat.

Definition is_ascii_upper (c : ascii) : bool :=
  let n := nat_of_ascii c in (65 <=? n)%nat && (n <=? 90)%nat.

Definition ascii_to_upper (c : ascii) : ascii :=
  if is_ascii_lower c then ascii_of_nat (nat_of_ascii c - 32) else c.

Definition ascii_to_lower (c : ascii) : ascii :=
  if is_ascii_upper c then ascii_of_nat (nat_of_ascii c + 32) else c.

(** [s.lower()] *)
Fixpoint str_lower (s : string) : string :=
  match s with
  | EmptyString => EmptyString
  | String c rest => String (ascii_to_lower c) (str_lower rest)
  end.

(** [s.title()]: a cased character that follows an uncased one (or opens
    the string) is put in upper case, a cased character that follows a
    cased one in lower case; [prev_cased] is CPython's
    [previous_is_cased] flag. *)
Fixpoint str_title_from (prev_cased : bool) (s : string) : string :=
  match s with
  | EmptyString => EmptyString
  | String c rest =>
      if is_ascii_lower c || is_ascii_upper c then
        String (if prev_cased then ascii_to_lower c else ascii_to_upper c)
               (str_title_from true rest)
      else String c (str_title_from false rest)
  end.

Definition str_title (s : string) : string := str_title_from false s.

(** [s.split(sep)] for a one-character separator; [cur] is the part read
    so far, in reverse. *)
Fixpoint str_split_from (sep : ascii) (cur : string) (s : string) : list string :=
  match s with
  | EmptyString => [cur]
  | String c rest =>
      if decide (c = sep) then cur :: str_split_from sep EmptyString rest
      else str_split_from sep (cur +:+ String c EmptyString) rest
  end.

Definition str_split (sep : ascii) (s : string) : list string :=
  str_split_from sep EmptyString s.

(** ["".join(parts)] *)
Definition str_join (parts : list string) : string :=
  fold_right String.append EmptyString parts.

(** [str(n)] for an integer. *)
Definition str_of_int (n : Z) : string := NilZero.string_of_int (Z.to_int n).

(** [c in s] for a character. *)
Fixpoint str_contains (c : ascii) (s : string) : bool :=
  match s with
  | EmptyString => false
  | String c' rest => bool_decide (c' = c) || str_contains c rest
  end.

(** [url_name] of both schema-naming sites:
    ["".join([part.title() for part in path_url.split("/")])]. *)
Definition url_name (path_url : string) : string :=
  str_join (map str_title (str_split "/"%char path_url)).


(** ** Data model *)

(** Python values that occur as defaults of parameters. *)
Inductive pyvalue : Type :=
  | PyNone
  | PyBool (b : bool)
  | PyInt (n : Z)
  | PyStr (s : string).

#[global] Instance pyvalue_eq_dec : EqDecision pyvalue.
Proof. solve_decision. Defined.

(** Truth value of a Python value, as [or] and [if] test it. *)
Definition truthy (v : pyvalue) : bool :=
  match v with
  | PyNone => false
  | PyBool b => b
  | PyInt n => negb (n =? 0)%Z
  | PyStr s => negb (String.eqb s "")
  end.

(** [a or b] on an optional string: [None] and [""] are falsy. *)
Definition str_or (a : option string) (b : string) : string :=
  match a with
  | Some s => if String.eqb s "" then b else s
  | None => b
  end.

(** [inspect.Parameter]: the annotation (by name, ["inspect._empty"] when
    there is none) and the default, [None] standing for [inspect._empty]. *)
Record SigParameter : Type := mkSigParameter {
  param_annotation : string;
  param_default : option pyvalue
}.

(** [inspect.Signature]: its ordered [parameters] mapping. *)
Record Signature : Type := mkSignature {
  parameters : pydict string SigParameter
}.

(** Field classes of [webargs.fields]: the two the resolver names and the
    others by name ([fields.String] is [fields_named "String"]). *)
Inductive field_class : Type :=
  | fields_Raw
  | fields_Field
  | fields_named (name : string).

#[global] Instance field_class_eq_dec : EqDecision field_class.
Proof. solve_decision. Defined.

(** A field instance.  [location] is the string kept under the
    ["location"] key of the field's metadata, when there is one;
    [metadata] holds the other keyword arguments that are not parameters
    of the constructor ([doc_default], [description], ...).  A location
    that is no string is outside the record: on [None], say, [AutoMD]
    raises at [loc.title()] where [AutoAPI], which names no schema after
    the location, goes on. *)
Record Field : Type := mkField {
  field_cls : field_class;
  required : bool;
  allow_none : bool;
  location : option string;
  metadata : pydict string pyvalue
}.

#[global] Instance Field_eq_dec : EqDecision Field.
Proof. solve_decision. Defined.

(** [cls( **field_args )] for the keyword arguments the resolver builds.
    [required] and [allow_none] are parameters of marshmallow's
    [Field.__init__], the rest goes to [metadata].  The constructor's
    [allow_none] parameter defaults to [None], which means "not given":
    the attribute is then true only when a load default of [None] was
    passed, and the resolver never passes one. *)
Definition new_field (cls : field_class) (field_args : pydict string pyvalue) : Field :=
  {| field_cls := cls;
     required := match dict_get "required" field_args with
                 | Some v => truthy v
                 | None => false
                 end;
     allow_none := match dict_get "allow_none" field_args with
                   | Some PyNone | None => false
                   | Some v => truthy v
                   end;
     location := None;
     metadata := filter (fun kv => fst kv ∉ ["required"; "allow_none"]) field_args |}.

(** [field.metadata.get("location", "query")] *)
Definition field_location (field : Field) : string :=
  default "query" (location field).

(** A schema class generated by [Schema.from_dict(fields, name=...)], or
    an instance of one: its name and its [fields]. *)
Record Schema : Type := mkSchema {
  schema_name : string;
  schema_fields : pydict string Field
}.

#[global] Instance Schema_eq_dec : EqDecision Schema.
Proof. solve_decision. Defined.

Definition Schema_from_dict (fields : pydict string Field) (name : string) : Schema :=
  {| schema_name := name; schema_fields := fields |}.

(** [fields.Nested(schema, location=..., name=...)] *)
Record Nested : Type := mkNested {
  nested_schema : Schema;
  nested_location : string;
  nested_name : option string
}.

(** The local class [ParameterSchema]: its [Meta.include] mapping. *)
Record ParameterSchema : Type := mkParameterSchema {
  include : pydict string Nested
}.

(** What an endpoint may declare as its parameters: a dictionary of
    fields, or a schema (anything with a [fields] attribute). *)
Inductive parameter_object : Type :=
  | ParamDict (d : pydict string Field)
  | ParamSchema (s : Schema).

(** An object given as a response descriptor or found in the table of
    recognized response types.  [py_hashable] tells whether [hash] takes
    the object: a class does, an instance of a class that defines
    [__eq__] without [__hash__] does not.  [py_name] is the [_name]
    attribute: absent, [None], or a string.  [py_to_schema] and
    [py_content_type] are what the methods [to_schema()] and
    [content_type()] return, when the object has them. *)
Record PyObject : Type := mkPyObject {
  py_repr : string;
  py_hashable : bool;
  py_name : option (option string);
  py_to_schema : option Schema;
  py_content_type : option string
}.

#[global] Instance PyObject_eq_dec : EqDecision PyObject.
Proof. solve_decision. Defined.

(** A response descriptor: [None], a string (the [_name] of a generic
    alias is one), or an object. *)
Inductive descriptor : Type :=
  | DNone
  | DStr (s : string)
  | DObj (o : PyObject).

#[global] Instance descriptor_eq_dec : EqDecision descriptor.
Proof. solve_decision. Defined.

Definition descriptor_repr (d : descriptor) : string :=
  match d with
  | DNone => "None"
  | DStr s => s
  | DObj o => py_repr o
  end.

(** Whether [hash] takes the descriptor: [None] and strings are
    hashable. *)
Definition hashable (d : descriptor) : bool :=
  match d with
  | DObj o => py_hashable o
  | DNone | DStr _ => true
  end.

(** [key in table.keys()]: the key is hashed first, and hashing an
    object that is not hashable raises [TypeError]. *)
Definition contains_key (table : pydict descriptor descriptor) (key : descriptor)
  : result bool :=
  if hashable key then Ok (dict_mem key table)
  else Raise (TypeError "unhashable type").

(** [getattr(response_object, "_name", None)] *)
Definition getattr_name (d : descriptor) : descriptor :=
  match d with
  | DObj o =>
      match py_name o with
      | Some (Some s) => DStr s
      | Some None | None => DNone
      end
  | DNone | DStr _ => DNone
  end.

(** [response_object._name] *)
Definition attr_name (d : descriptor) : result descriptor :=
  match d with
  | DObj o =>
      match py_name o with
      | Some (Some s) => Ok (DStr s)
      | Some None => Ok DNone
      | None => Raise (AttributeError (py_repr o) "_name")
      end
  | DNone => Raise (AttributeError "NoneType" "_name")
  | DStr _ => Raise (AttributeError "str" "_name")
  end.

(** [response_interface.to_schema()] *)
Definition to_schema (i : descriptor) : result Schema :=
  match i with
  | DObj o =>
      match py_to_schema o with
      | Some s => Ok s
      | None => Raise (AttributeError (py_repr o) "to_schema")
      end
  | DNone => Raise (AttributeError "NoneType" "to_schema")
  | DStr _ => Raise (AttributeError "str" "to_schema")
  end.

(** [response_interface.content_type()] *)
Definition content_type (i : descriptor) : result string :=
  match i with
  | DObj o =>
      match py_content_type o with
      | Some ct => Ok ct
      | None => Raise (AttributeError (py_repr o) "content_type")
      end
  | DNone => Raise (AttributeError "NoneType" "content_type")
  | DStr _ => Raise (AttributeError "str" "content_type")
  end.

(** [mimetypes.MimeTypes().types_map[1][".txt"]] *)
Definition default_content_type : string := "text/plain".

(** A tag object, such as [{"name": "status"}]. *)
Abbreviation Tag := (pydict string string).

(** One entry of an operation's ["responses"]: the description and the
    ["content"] mapping from media type to the schema under ["schema"]. *)
Record Response : Type := mkResponse {
  resp_description : string;
  resp_content : pydict string Schema
}.

(** One entry of an operation's ["parameters"] list. *)
Record ParameterEntry : Type := mkParameterEntry {
  entry_in : string;
  entry_name : option string;
  entry_schema : ParameterSchema
}.

(** The operation record built for one verb. *)
Record Operation : Type := mkOperation {
  op_responses : pydict string Response;
  op_parameters : list ParameterEntry;
  op_summary : option string;
  op_description : option string;
  op_tags : list Tag
}.

(** The plugins a document is built with: both classes configure the
    one [MarshmallowPlugin()]. *)
Inductive Plugin : Type :=
  | MarshmallowPlugin.

(** The specification document ([apispec.APISpec]): its options, its
    plugins and the path table, keyed by path and then by verb. *)
Record APISpec : Type := mkAPISpec {
  spec_title : string;
  spec_version : string;
  spec_openapi_version : string;
  spec_info : pydict string string;
  spec_plugins : list Plugin;
  spec_paths : pydict string (pydict string Operation)
}.

(** [api_spec.path(path=..., operations=...)] on the path table: apispec
    keeps the operations with
    [self._paths.setdefault(path, operations).update(operations)].
    Before that it runs the helpers of the plugins, which turn the
    schemas of the operations into references to components; apispec is
    not among the sources, and this part of it is not modelled: the path
    table holds the operations as they are passed, and the document has
    no table of components. *)
Definition APISpec_path (api_spec : APISpec) (path : string)
    (operations : pydict string Operation) : APISpec :=
  let current := default operations (dict_get path (spec_paths api_spec)) in
  {| spec_title := spec_title api_spec;
     spec_version := spec_version api_spec;
     spec_openapi_version := spec_openapi_version api_spec;
     spec_info := spec_info api_spec;
     spec_plugins := spec_plugins api_spec;
     spec_paths := dict_set path (dict_update current operations) (spec_paths api_spec) |}.

(** *** Object identity

    The records of the data model compare by content.  Python compares
    by identity what [register_path] creates at every call: the
    [operations] dictionary holds a new instance of the new class
    [ParameterSchema] (lines 112-120 and 192), whose nested fields hold
    the new schema class of each location (line 110); the schema of a
    null interface is a new class as well (line 139), and so are the
    fields inferred from a signature (line 86).  None of these defines
    [__eq__]: an operation built by one call is never equal to one built
    by another call, whatever the inputs.  Where this matters, an
    operation is kept with the number of the call that built it. *)
Record StoredOperation : Type := mkStoredOperation {
  stored_call : nat;
  stored_operation : Operation
}.

(** A path table with identities, and the number of registrations made
    into it so far, which numbers the next one. *)
Record Document : Type := mkDocument {
  doc_calls : nat;
  doc_paths : pydict string (pydict string StoredOperation)
}.

(** [api_spec.path(path=..., operations=...)] for operations that the
    call numbered [doc_calls] has built. *)
Definition Document_path (doc : Document) (path : string)
    (operations : pydict string Operation) : Document :=
  let stored :=
    map (fun kv => (fst kv, {| stored_call := doc_calls doc;
                               stored_operation := snd kv |}))
        operations in
  let current := default stored (dict_get path (doc_paths doc)) in
  {| doc_calls := S (doc_calls doc);
     doc_paths := dict_set path (dict_update current stored) (doc_paths doc) |}.


(** The operations of a path, and the path table of a document, without
    the identities. *)
Definition erase_operations (ops : pydict string StoredOperation)
  : pydict string Operation :=
  map (fun kv => (fst kv, stored_operation (snd kv))) ops.

Definition erase_paths (doc : Document) : pydict string (pydict string Operation) :=
  map (fun kv => (fst kv, erase_operations (snd kv))) (doc_paths doc).

(** The operation the document holds for a path and a verb. *)
Definition spec_operation (api_spec : APISpec) (path verb : string) : option Operation :=
  ops ← dict_get path (spec_paths api_spec); dict_get verb ops.

(** Every operation of the document has a tag. *)
Definition all_tagged (api_spec : APISpec) : Prop :=
  forall path verb op, spec_operation api_spec path verb = Some op -> op_tags op ≠ [].

(** The endpoint metadata a decorator attaches to a handler, read with
    [.get(key)]: a key that is missing reads as [None]. *)
Record EndpointSpec : Type := mkEndpointSpec {
  md_response_schemas : option (pydict string descriptor);
  md_parameter_schema : option parameter_object;
  md_func_signature : option Signature;
  md_summary : option string;
  md_description : option string;
  md_tags : option (list Tag)
}.

(** A handler function: the metadata under the marker key, if any. *)
Record Handler : Type := mkHandler {
  handler_spec : option EndpointSpec
}.

(** A view function of the application: its [methods] (when it has the
    attribute), the URL that [url_for(view.view_class.endpoint)] builds,
    and the attributes of [view.view_class] by name.

    The record holds the views on which the loop gets as far as the
    handler: [methods], when present, is a collection, the view has a
    [view_class], and [url_for] builds a URL.  On any other view with a
    method to visit the build raises before it reads a handler, so the
    record holds every application on which a build returns. *)
Record View : Type := mkView {
  methods : option (list string);
  view_url : string;
  view_class : pydict string Handler
}.

Record Flask : Type := mkFlask {
  view_functions : pydict string View
}.

(** The handler the introspector finds for [method] of [view] in [app]. *)
Definition app_handler (app : Flask) (view : View) (method : string)
    (value_func : Handler) : Prop :=
  exists name ms,
    (name, view) ∈ view_functions app ∧
    methods view = Some ms ∧
    method ∈ ms ∧
    dict_get (str_lower method) (view_class view) = Some value_func.

(** [d[k]] on a dictionary: a missing key raises [KeyError]. *)
Definition getitem {K V : Type} `{EqDecision K} (repr : K -> string)
    (d : pydict K V) (k : K) : result V :=
  match dict_get k d with
  | Some v => Ok v
  | None => Raise (KeyError (repr k))
  end.

(** [tags or [default_tag]] *)
Definition tags_or (tags : option (list Tag)) (default_tag : Tag) : list Tag :=
  match tags with
  | Some (t :: ts) => t :: ts
  | Some [] | None => [default_tag]
  end.

(** The options both classes keep for [APISpec]. *)
Record ApispecOptions : Type := mkApispecOptions {
  opt_title : string;
  opt_app_version : string;
  opt_openapi_version : string;
  opt_info : pydict string string;
  opt_plugins : list Plugin
}.

(** The grouping loop shared by [AutoMD.parse_parameter_schema] and
    [AutoAPI.register_path]: one step of
    [for name, field in parameter_dict.items()]. *)
Definition group_field (location_argmaps : pydict string (pydict string Field))
    (item : string * Field) : pydict string (pydict string Field) :=
  let '(name, field) := item in
  let location := field_location field in
  let location_argmaps :=
    if dict_mem location location_argmaps then location_argmaps
    else dict_set location [] location_argmaps in
  dict_set location
    (dict_set name field (default [] (dict_get location location_argmaps)))
    location_argmaps.

Definition group_fields (parameter_dict : pydict string Field)
  : pydict string (pydict string Field) :=
  fold_left group_field parameter_dict [].

(** The field stored for [name] in the bucket of [loc]. *)
Definition bucket_get (location_argmaps : pydict string (pydict string Field))
    (loc name : string) : option Field :=
  argmap ← dict_get loc location_argmaps; dict_get name argmap.

(** [parameter_object.fields if hasattr(parameter_object, "fields") else parameter_object] *)
Definition parameter_fields (p : parameter_object) : pydict string Field :=
  match p with
  | ParamSchema s => schema_fields s
  | ParamDict d => d
  end.

(** The field names of one bucket of a composite schema. *)
Definition bucket_keys (b : Nested) : gset string :=
  list_to_set (dict_keys (schema_fields (nested_schema b))).

(** The [include] mapping that the two loops after the grouping build
    when every bucket is named by [name_of]: one nested sub-schema per
    bucket, in the order of the buckets. *)
Definition nested_buckets (name_of : string -> string)
    (location_argmaps : pydict string (pydict string Field)) : pydict string Nested :=
  map (fun kv =>
         (fst kv,
          {| nested_schema := Schema_from_dict (snd kv) (name_of (fst kv));
             nested_location := fst kv;
             nested_name := Some (fst kv) |}))
      location_argmaps.

(** A dictionary comprehension [{k: f(k, v) for k, v in d.items()}]. *)
Definition dict_comprehension {K A B : Type} `{EqDecision K}
    (f : K -> A -> B) (d : pydict K A) : pydict K B :=
  fold_left (fun acc kv => dict_set (fst kv) (f (fst kv) (snd kv)) acc) d [].

(** The distinct elements of a list, each at the place of its first
    occurrence: the order in which a loop that appends unseen keys to a
    dictionary meets them. *)
Definition first_occurrences {A : Type} `{EqDecision A} (l : list A) : list A :=
  fold_left (fun seen x => if bool_decide (x ∈ seen) then seen else seen ++ [x]) l [].

(** The items of a dictionary of fields that go to the location [loc]. *)
Definition fields_at (loc : string) (fields : pydict string Field)
  : pydict string Field :=
  filter (fun kv => field_location (snd kv) = loc) fields.

(** ** [class AutoMD] *)

Module AutoMD.

Record t : Type := mk {
  default_tag : Tag;
  apispec_options : ApispecOptions
}.

(** [__init__] *)
Definition init (title app_version openapi_version : string)
    (info : option (pydict string string)) (default_tag : option string) : t :=
  {| default_tag := [("name", str_or default_tag title)];
     apispec_options :=
       {| opt_title := title;
          opt_app_version := app_version;
          opt_openapi_version := openapi_version;
          opt_info := default [] info;
          opt_plugins := [MarshmallowPlugin] |} |}.

Definition start_spec (self : t) : APISpec :=
  {| spec_title := opt_title (apispec_options self);
     spec_version := opt_app_version (apispec_options self);
     spec_openapi_version := opt_openapi_version (apispec_options self);
     spec_info := opt_info (apispec_options self);
     spec_plugins := opt_plugins (apispec_options self);
     spec_paths := [] |}.

Section Tables.

(** The tables the class reads.  [type_field_mapping] and
    [response_object_type_map] come from [automd.responses.responses],
    which is not among the sources, and [responses] from [http.client]:
    all three are plain dictionaries, taken as they are given, and
    subscripting one with a key it does not hold raises [KeyError]. *)
Variable type_field_mapping : gmap string field_class.
Variable response_object_type_map : pydict descriptor descriptor.
Variable responses : gmap Z string.

(** The keyword arguments built before the field class is looked up. *)
Definition signature_field_args (param : SigParameter) : pydict string pyvalue :=
  let field_args := [("required", PyBool (bool_decide (param_default param = None)))] in
  let field_args :=
    match param_default param with
    | Some d => dict_set "doc_default" d field_args
    | None => field_args
    end in
  match param_default param with
  | Some d => if decide (d = PyNone) then dict_set "allow_none" d field_args else field_args
  | None => field_args
  end.

(** [type_field_mapping[annotation]] *)
Definition field_class_of (ann : string) : result field_class :=
  match type_field_mapping !! ann with
  | Some cls => Ok cls
  | None => Raise (KeyError ann)
  end.

(** Lines 83-86: the field built for a parameter once its class is
    known. *)
Definition inferred_field (cls : field_class) (param : SigParameter) : Field :=
  let field_args := signature_field_args param in
  let field_args :=
    if bool_decide (cls ∈ [fields_Raw; fields_Field])
    then dict_set "description" (PyStr "parameter of unspecified type") field_args
    else field_args in
  new_field cls field_args.

(** One step of [for name, param in func_signature.parameters.items()].
    The source reads [type_field_mapping[param.annotation]] twice, at
    lines 83 and 86, with the same outcome; the first read is the one
    that raises. *)
Definition infer_parameter (parameter_signature_dict : pydict string Field)
    (item : string * SigParameter) : result (pydict string Field) :=
  let '(name, param) := item in
  if decide (name = "self") then Ok parameter_signature_dict
  else
    let* cls := field_class_of (param_annotation param) in
    Ok (dict_set name (inferred_field cls param) parameter_signature_dict).

Definition infer_parameters (func_signature : option Signature)
  : result (pydict string Field) :=
  match func_signature with
  | Some sig => for_each infer_parameter (parameters sig) []
  | None => Raise (AttributeError "NoneType" "parameters")
  end.

(** The name of the sub-schema of one location. *)
Definition location_schema_name (path_url http_verb loc : string) : string :=
  url_name path_url +:+ str_title http_verb +:+ str_title loc +:+ "Schema".

(** One step of [for loc, argmap in location_argmaps.items()]; the empty
    placeholder the source stores first is overwritten at once. *)
Definition location_schema (path_url http_verb : string)
    (location_schemas : pydict string Schema)
    (item : string * pydict string Field) : pydict string Schema :=
  let '(loc, argmap) := item in
  dict_set loc (Schema_from_dict argmap (location_schema_name path_url http_verb loc))
    location_schemas.

Definition parse_parameter_schema (parameter_object : option parameter_object)
    (func_signature : option Signature) (path_url http_verb : string)
  : result ParameterSchema :=
  let* parameter_object :=
    match parameter_object with
    | Some p => Ok p
    | None =>
        let* parameter_signature_dict := infer_parameters func_signature in
        Ok (ParamDict parameter_signature_dict)
    end in
  let parameter_dict := parameter_fields parameter_object in
  let location_argmaps := group_fields parameter_dict in
  let location_schemas :=
    fold_left (location_schema path_url http_verb) location_argmaps [] in
  Ok {| include :=
          dict_comprehension
            (fun loc schema =>
               {| nested_schema := schema;
                  nested_location := loc;
                  nested_name := Some loc |})
            location_schemas |}.

(** Lines 126-132: the interface a response descriptor resolves to. *)
Definition resolve_interface (response_object : descriptor) : result descriptor :=
  let* is_key := contains_key response_object_type_map response_object in
  if is_key then
    getitem descriptor_repr response_object_type_map response_object
  else
    let* name_is_key :=
      contains_key response_object_type_map (getattr_name response_object) in
    if name_is_key then
      let* name := attr_name response_object in
      getitem descriptor_repr response_object_type_map name
    else Ok response_object.

(** The name of the schema synthesized for a null interface. *)
Definition response_schema_name (path_url http_verb : string) : string :=
  url_name path_url +:+ str_title http_verb +:+ "ResponseSchema".

Definition parse_response_schema (response_object : descriptor)
    (path_url http_verb : string) : result (Schema * string) :=
  let* response_interface := resolve_interface response_object in
  let* response_schema :=
    match response_interface with
    | DNone => Ok (Schema_from_dict [] (response_schema_name path_url http_verb))
    | _ => to_schema response_interface
    end in
  let* content_type :=
    match content_type response_interface with
    | Ok ct => Ok ct
    | Raise (AttributeError _ _) => Ok default_content_type
    | Raise e => Raise e
    end in
  Ok (response_schema, content_type).

(** [responses[response_code]] *)
Definition status_phrase (response_code : Z) : result string :=
  match responses !! response_code with
  | Some phrase => Ok phrase
  | None => Raise (KeyError (str_of_int response_code))
  end.

(** Lines 176-197 of [register_path]: the [operations] dictionary. *)
Definition operations (self : t)
    (path_url http_verb : string) (response_code : Z)
    (summary description : option string)
    (parameter_object : option parameter_object)
    (response_object : descriptor)
    (func_signature : option Signature)
    (tags : option (list Tag)) : result (pydict string Operation) :=
  let* parameter_schema :=
    parse_parameter_schema parameter_object func_signature path_url http_verb in
  let* (response_schema, content_type) :=
    parse_response_schema response_object path_url http_verb in
  let* phrase := status_phrase response_code in
  Ok [(str_lower http_verb,
       {| op_responses :=
            [(str_of_int response_code,
              {| resp_description := phrase;
                 resp_content := [(content_type, response_schema)] |})];
          op_parameters :=
            [{| entry_in := "query";
                entry_name := Some "test";
                entry_schema := parameter_schema |}];
          op_summary := summary;
          op_description := description;
          op_tags := tags_or tags (default_tag self) |})].

Definition register_path (self : t) (api_spec : APISpec)
    (path_url http_verb : string) (response_code : Z)
    (summary description : option string)
    (parameter_object : option parameter_object)
    (response_object : descriptor)
    (func_signature : option Signature)
    (tags : option (list Tag)) : result APISpec :=
  let* operations :=
    operations self path_url http_verb response_code summary description
      parameter_object response_object func_signature tags in
  Ok (APISpec_path api_spec path_url operations).

(** [register_path] on a path table with identities: the operations are
    built as before and stored as the work of this call. *)
Definition register_path_stored (self : t) (doc : Document)
    (path_url http_verb : string) (response_code : Z)
    (summary description : option string)
    (parameter_object : option parameter_object)
    (response_object : descriptor)
    (func_signature : option Signature)
    (tags : option (list Tag)) : result Document :=
  let* operations :=
    operations self path_url http_verb response_code summary description
      parameter_object response_object func_signature tags in
  Ok (Document_path doc path_url operations).

(** [response_schemas["200"]]: subscripting [None] is a [TypeError], a
    missing key a [KeyError]. *)
Definition response_200 (response_schemas : option (pydict string descriptor))
  : result descriptor :=
  match response_schemas with
  | Some rs => getitem id rs "200"
  | None => Raise (TypeError "'NoneType' object is not subscriptable")
  end.

(** The body of [for method in view.methods]. *)
Definition document_method (self : t) (view : View) (automd_spec : APISpec)
    (method : string) : result APISpec :=
  let key := view_url view in
  let* value_func :=
    match dict_get (str_lower method) (view_class view) with
    | Some f => Ok f
    | None => Raise (AttributeError "view_class" (str_lower method))
    end in
  match handler_spec value_func with
  | Some automd_spec_parameters =>
      let response_schemas := md_response_schemas automd_spec_parameters in
      let parameter_schema := md_parameter_schema automd_spec_parameters in
      let func_signature := md_func_signature automd_spec_parameters in
      let summary := md_summary automd_spec_parameters in
      let description := md_description automd_spec_parameters in
      let tags := md_tags automd_spec_parameters in
      let* response_object := response_200 response_schemas in
      register_path self automd_spec key method 200 summary description
        parameter_schema response_object func_signature tags
  | None => Ok automd_spec
  end.

(** The body of [for name, view in app.view_functions.items()]. *)
Definition document_view (self : t) (automd_spec : APISpec)
    (item : string * View) : result APISpec :=
  match methods (snd item) with
  | Some ms => for_each (document_method self (snd item)) ms automd_spec
  | None => Ok automd_spec
  end.

Definition application_to_apispec (self : t) (app : Flask) : result APISpec :=
  for_each (document_view self) (view_functions app) (start_spec self).

End Tables.

End AutoMD.

(** ** [class AutoAPI] *)

Module AutoAPI.

Record t : Type := mk {
  default_tag : Tag;
  apispec_options : ApispecOptions
}.

(** [__init__] *)
Definition init (title app_version openapi_version : string)
    (info : option (pydict string string)) (default_tag : option string) : t :=
  {| default_tag := [("name", str_or default_tag title)];
     apispec_options :=
       {| opt_title := title;
          opt_app_version := app_version;
          opt_openapi_version := openapi_version;
          opt_info := default [] info;
          opt_plugins := [MarshmallowPlugin] |} |}.

Definition start_spec (self : t) : APISpec :=
  {| spec_title := opt_title (apispec_options self);
     spec_version := opt_app_version (apispec_options self);
     spec_openapi_version := opt_openapi_version (apispec_options self);
     spec_info := opt_info (apispec_options self);
     spec_plugins := opt_plugins (apispec_options self);
     spec_paths := [] |}.

Section Tables.

(** The tables the class reads: [response_object_type_map] of
    [autoapi.responses.responses], which is not among the sources, and
    [responses] of [http.client]. *)
Variable response_object_type_map : pydict descriptor descriptor.
Variable responses : gmap Z string.

(** [webargs.dict2schema(argmap)], which names the class it generates
    itself. *)
Definition dict2schema (argmap : pydict string Field) : Schema :=
  Schema_from_dict argmap "GeneratedSchema".

(** One step of [for loc, argmap in location_argmaps.items()]. *)
Definition location_schema (location_schemas : pydict string Schema)
    (item : string * pydict string Field) : pydict string Schema :=
  let '(loc, argmap) := item in
  dict_set loc (dict2schema argmap) location_schemas.

(** Lines 111-117: the interface a response descriptor resolves to. *)
Definition resolve_interface (response_object : descriptor) : result descriptor :=
  let* is_key := contains_key response_object_type_map response_object in
  if is_key then
    getitem descriptor_repr response_object_type_map response_object
  else
    let* name_is_key :=
      contains_key response_object_type_map (getattr_name response_object) in
    if name_is_key then
      let* name := attr_name response_object in
      getitem descriptor_repr response_object_type_map name
    else Ok response_object.

(** [responses[response_code]] *)
Definition status_phrase (response_code : Z) : result string :=
  match responses !! response_code with
  | Some phrase => Ok phrase
  | None => Raise (KeyError (str_of_int response_code))
  end.

(** Lines 83-145 of [register_path]: the [operations] dictionary. *)
Definition operations (self : t)
    (path_url http_verb : string) (response_code : Z)
    (summary description : option string)
    (parameter_object : option parameter_object)
    (response_object : descriptor)
    (tags : option (list Tag)) : result (pydict string Operation) :=
  let* parameter_dict :=
    match parameter_object with
    | Some p => Ok (parameter_fields p)
    | None => Raise (AttributeError "NoneType" "items")
    end in
  let location_argmaps := group_fields parameter_dict in
  let location_schemas := fold_left location_schema location_argmaps [] in
  let parameter_schema :=
    {| include :=
         dict_comprehension
           (fun loc schema =>
              {| nested_schema := schema;
                 nested_location := loc;
                 nested_name := None |})
           location_schemas |} in
  let* response_interface := resolve_interface response_object in
  let* response_schema := to_schema response_interface in
  let* content_type :=
    match content_type response_interface with
    | Ok ct => Ok ct
    | Raise (AttributeError _ _) => Ok default_content_type
    | Raise e => Raise e
    end in
  let* phrase := status_phrase response_code in
  Ok [(str_lower http_verb,
       {| op_responses :=
            [(str_of_int response_code,
              {| resp_description := phrase;
                 resp_content := [(content_type, response_schema)] |})];
          op_parameters :=
            [{| entry_in := "query";
                entry_name := None;
                entry_schema := parameter_schema |}];
          op_summary := summary;
          op_description := description;
          op_tags := tags_or tags (default_tag self) |})].

Definition register_path (self : t) (api_spec : APISpec)
    (path_url http_verb : string) (response_code : Z)
    (summary description : option string)
    (parameter_object : option parameter_object)
    (response_object : descriptor)
    (tags : option (list Tag)) : result APISpec :=
  let* operations :=
    operations self path_url http_verb response_code summary description
      parameter_object response_object tags in
  Ok (APISpec_path api_spec path_url operations).

(** [response_schemas["200"]] *)
Definition response_200 (response_schemas : option (pydict string descriptor))
  : result descriptor :=
  match response_schemas with
  | Some rs => getitem id rs "200"
  | None => Raise (TypeError "'NoneType' object is not subscriptable")
  end.

(** The body of [for method in view.methods]. *)
Definition document_method (self : t) (view : View) (autoapi_spec : APISpec)
    (method : string) : result APISpec :=
  let key := view_url view in
  let* value_func :=
    match dict_get (str_lower method) (view_class view) with
    | Some f => Ok f
    | None => Raise (AttributeError "view_class" (str_lower method))
    end in
  match handler_spec value_func with
  | Some autoapi_spec_parameters =>
      let response_schemas := md_response_schemas autoapi_spec_parameters in
      let parameter_schema := md_parameter_schema autoapi_spec_parameters in
      let summary := md_summary autoapi_spec_parameters in
      let description := md_description autoapi_spec_parameters in
      let tags := md_tags autoapi_spec_parameters in
      let* response_object := response_200 response_schemas in
      register_path self autoapi_spec key method 200 summary description
        parameter_schema response_object tags
  | None => Ok autoapi_spec
  end.

(** The body of [for name, view in app.view_functions.items()]. *)
Definition document_view (self : t) (autoapi_spec : APISpec)
    (item : string * View) : result APISpec :=
  match methods (snd item) with
  | Some ms => for_each (document_method self (snd item)) ms autoapi_spec
  | None => Ok autoapi_spec
  end.

Definition application_to_apispec (self : t) (app : Flask) : result APISpec :=
  for_each (document_view self) (view_functions app) (start_spec self).

End Tables.

End AutoAPI.

(** ** [automd_testapp/endpoints/status.py]

    The handlers of the test application, as functions of their keyword
    arguments ([None] for an argument that is not passed), and the
    dictionaries of fields they declare. *)

Module Status.

(** [fields.String(required=False, description=..., doc_default=...)] *)
Definition get_query_arguments : pydict string Field :=
  [("text",
    {| field_cls := fields_named "String"; required := false;
       allow_none := false; location := None;
       metadata := [("description", PyStr "Text to return");
                    ("doc_default", PyStr "Hello AutoMD")] |})].

Definition post_query_arguments : pydict string Field := get_query_arguments.

Definition post_json_arguments : pydict string Field :=
  [("json_text",
    {| field_cls := fields_named "String"; required := false;
       allow_none := false; location := None;
       metadata :=
         [("description", PyStr "Text to return (overrides query parameters)");
          ("doc_default", PyStr "Hello AutoMD")] |})].

(** [{**post_query_arguments, **post_json_arguments}] *)
Definition post_parameter_schema : pydict string Field :=
  dict_update post_query_arguments post_json_arguments.

(** [get]: the text given to [ValueResponse]. *)
Definition get (text : option string) : string :=
  let ret_text := "status check OK" in
  match text with
  | Some t => ret_text +:+ ": " +:+ str_or (Some t) "Hello AutoMD"
  | None => ret_text
  end.

(** [post]: the dictionary given to [JSONResponse]. *)
Definition post (text json_text : option string) : pydict string string :=
  let ret_text := "status check OK" in
  let ret_text :=
    match text with
    | Some t =>
        ret_text +:+ ": " +:+ str_or json_text (str_or (Some t) "Hello AutoMD")
    | None => ret_text
    end in
  [("response", ret_text)].

End Status.

(** The buckets of a composite schema without the names of the generated
    classes: per location, the fields of the sub-schema. *)
Definition bucket_contents (ps : ParameterSchema)
  : pydict string (pydict string Field) :=
  map (fun kv => (fst kv, schema_fields (nested_schema (snd kv)))) (include ps).

(** An entry of a document that stems from a handler of [app] that
    carries endpoint metadata: it sits at the URL of the handler's view
    and the handler's method in lower case, answers under ["200"] only,
    and has the summary, the description and the tags of the metadata
    (the default tag when the metadata has none). *)
Definition from_handler (default_tag : Tag) (app : Flask)
    (path verb : string) (op : Operation) : Prop :=
  exists view method h md,
    app_handler app view method h ∧ handler_spec h = Some md ∧
    path = view_url view ∧ verb = str_lower method ∧
    dict_keys (op_responses op) = ["200"] ∧
    op_summary op = md_summary md ∧
    op_description op = md_description md ∧
    op_tags op = tags_or (md_tags md) default_tag.

(** * Properties *)

(** ** Dictionaries *)

Section PyDictFacts.
Context {K V : Type} `{EqDecision K}.
Implicit Types (k : K) (v : V) (d : pydict K V).

Lemma dict_get_set_eq k v d : dict_get k (dict_set k v d) = Some v.
Proof.
  induction d as [|[k' v'] d IH]; simpl.
  - by rewrite decide_True.
  - destruct (decide (k = k')) as [->|Hne]; simpl.
    + by rewrite decide_True.
    + by rewrite decide_False.
Qed.

Lemma dict_get_set_ne k k' v d :
  k ≠ k' -> dict_get k' (dict_set k v d) = dict_get k' d.
Proof.
  intros Hne. induction d as [|[k0 v0] d IH]; simpl.
  - by rewrite decide_False.
  - destruct (decide (k = k0)) as [->|Hk]; simpl.
    + by rewrite !decide_False.
    + destruct (decide (k' = k0)); [done | apply IH].
Qed.

Lemma dict_get_set k k' v d :
  dict_get k' (dict_set k v d) = if decide (k = k') then Some v else dict_get k' d.
Proof.
  destruct (decide (k = k')) as [->|Hne].
  - apply dict_get_set_eq.
  - by apply dict_get_set_ne.
Qed.

Lemma dict_get_Some_elem_of k v d : dict_get k d = Some v -> (k, v) ∈ d.
Proof.
  induction d as [|[k' v'] d IH]; simpl; [done|].
  destruct (decide (k = k')) as [->|Hne].
  - intros [= ->]. apply list_elem_of_here.
  - intros Hget. apply list_elem_of_further. by apply IH.
Qed.

Lemma dict_get_None_keys k d : dict_get k d = None <-> k ∉ dict_keys d.
Proof.
  unfold dict_keys. induction d as [|[k' v'] d IH]; simpl.
  - split; [intros _; apply not_elem_of_nil | done].
  - rewrite not_elem_of_cons. destruct (decide (k = k')) as [->|Hne].
    + split; [done | intros [Hk _]; done].
    + rewrite IH. tauto.
Qed.

Lemma dict_get_is_Some_keys k d : is_Some (dict_get k d) <-> k ∈ dict_keys d.
Proof.
  rewrite <- not_eq_None_Some, dict_get_None_keys.
  split; [apply dec_stable | tauto].
Qed.

Lemma dict_wf_elem_of_get k v d :
  dict_wf d -> (k, v) ∈ d -> dict_get k d = Some v.
Proof.
  unfold dict_wf, dict_keys. induction d as [|[k' v'] d IH]; simpl.
  - intros _ Hin. by apply elem_of_nil in Hin.
  - intros Hnd Hin. apply NoDup_cons in Hnd as [Hfresh Hnd].
    apply elem_of_cons in Hin as [[= -> ->]|Hin].
    + by rewrite decide_True.
    + rewrite decide_False; [by apply IH|].
      intros ->. apply Hfresh. apply list_elem_of_fmap. by exists (k', v).
Qed.

Lemma dict_wf_lookup_get i k v d :
  dict_wf d -> d !! i = Some (k, v) -> dict_get k d = Some v.
Proof.
  intros Hwf Hi. apply dict_wf_elem_of_get; [done|].
  apply list_elem_of_lookup. by exists i.
Qed.

Lemma dict_keys_set k v d :
  dict_keys (dict_set k v d) =
  if dict_mem k d then dict_keys d else dict_keys d ++ [k].
Proof.
  unfold dict_mem, dict_keys. induction d as [|[k' v'] d IH]; simpl; [done|].
  destruct (decide (k = k')) as [->|Hne]; simpl; [done|].
  rewrite IH. by destruct (dict_get k d).
Qed.

Lemma dict_wf_set k v d : dict_wf d -> dict_wf (dict_set k v d).
Proof.
  unfold dict_wf. intros Hwf. rewrite dict_keys_set.
  destruct (dict_mem k d) eqn:Hmem; [done|].
  apply NoDup_app. split_and!; [done | | apply NoDup_singleton].
  intros x Hx ->%list_elem_of_singleton.
  apply dict_get_is_Some_keys in Hx as [w Hw].
  unfold dict_mem in Hmem. by rewrite Hw in Hmem.
Qed.

Lemma dict_set_fresh k v d : dict_get k d = None -> dict_set k v d = d ++ [(k, v)].
Proof.
  induction d as [|[k' v'] d IH]; simpl; [done|].
  destruct (decide (k = k')); [done|]. intros Hget. by rewrite IH.
Qed.

End PyDictFacts.

(** A loop that stores one entry per item of a well-formed dictionary
    appends the entries in order. *)
Lemma fold_dict_set_fresh {K A B : Type} `{EqDecision K}
    (f : pydict K B -> K * A -> pydict K B) (g : K * A -> B)
    (d : pydict K A) (acc : pydict K B) :
  (forall acc kv, f acc kv = dict_set (fst kv) (g kv) acc) ->
  NoDup (dict_keys acc ++ dict_keys d) ->
  fold_left f d acc = acc ++ map (fun kv => (fst kv, g kv)) d.
Proof.
  intros Hf. revert acc. induction d as [|[k a] d IH]; intros acc Hnd; simpl.
  - by rewrite app_nil_r.
  - assert (dict_get k acc = None) as Hfresh.
    { apply dict_get_None_keys. intros Hin.
      apply NoDup_app in Hnd as (_ & Hdisj & _).
      apply (Hdisj k Hin). simpl. apply list_elem_of_here. }
    rewrite Hf. simpl. rewrite (dict_set_fresh _ _ _ Hfresh), IH.
    + by rewrite <- app_assoc.
    + unfold dict_keys in *. rewrite map_app. simpl in *.
      by rewrite <- app_assoc.
Qed.

Lemma dict_comprehension_wf {K A B : Type} `{EqDecision K}
    (f : K -> A -> B) (d : pydict K A) :
  dict_wf d ->
  dict_comprehension f d = map (fun kv => (fst kv, f (fst kv) (snd kv))) d.
Proof.
  intros Hwf. unfold dict_comprehension.
  by rewrite (fold_dict_set_fresh _ (fun kv => f (fst kv) (snd kv))).
Qed.

(** ** Strings *)

Example str_title_ex : str_title "heLLo wOrld_ab1cd" = "Hello World_Ab1Cd".
Proof. reflexivity. Qed.

Example str_split_ex : str_split "/"%char "a/b//status" = ["a"; "b"; ""; "status"].
Proof. reflexivity. Qed.

Example str_split_empty : str_split "/"%char "" = [""].
Proof. reflexivity. Qed.

Example url_name_ex : url_name "/status/check" = "StatusCheck".
Proof. reflexivity. Qed.

Example str_of_int_ex :
  str_of_int 200 = "200" /\ str_of_int 0 = "0" /\ str_of_int (-5) = "-5".
Proof. repeat split; reflexivity. Qed.

(** ** Location grouping *)

Local Ltac case_solve :=
  repeat case_decide; simplify_eq/=; try done; try (intuition congruence).

Lemma bucket_get_group_field acc name field loc name' :
  bucket_get (group_field acc (name, field)) loc name' =
  if decide (loc = field_location field ∧ name' = name) then Some field
  else bucket_get acc loc name'.
Proof.
  unfold bucket_get, group_field, dict_mem.
  destruct (dict_get (field_location field) acc) as [bucket|] eqn:Hloc; simpl.
  - rewrite dict_get_set.
    destruct (decide (field_location field = loc)) as [<-|Hne]; simpl.
    + rewrite Hloc; simpl. rewrite dict_get_set.
      case_solve.
    + case_solve.
  - rewrite dict_get_set_eq; simpl. rewrite dict_get_set.
    destruct (decide (field_location field = loc)) as [<-|Hne]; simpl.
    + rewrite Hloc; simpl. case_solve.
    + rewrite dict_get_set_ne by done. case_solve.
Qed.

Lemma bucket_get_fold fields : forall acc loc name,
  dict_wf fields ->
  bucket_get (fold_left group_field fields acc) loc name =
  match dict_get name fields with
  | Some field =>
      if decide (field_location field = loc) then Some field
      else bucket_get acc loc name
  | None => bucket_get acc loc name
  end.
Proof.
  unfold dict_wf, dict_keys.
  induction fields as [|[n f] fields IH]; intros acc loc name Hwf;
    cbn [fold_left dict_get]; [done|].
  cbn [map fst] in Hwf. apply NoDup_cons in Hwf as [Hfresh Hwf].
  rewrite IH by done.
  destruct (dict_get name fields) as [f'|] eqn:Hget;
    rewrite ?bucket_get_group_field.
  - assert (name ≠ n) as Hne.
    { intros ->. apply dict_get_None_keys in Hfresh. congruence. }
    case_solve.
  - case_solve.
Qed.

Lemma bucket_get_group_fields fields loc name :
  dict_wf fields ->
  bucket_get (group_fields fields) loc name =
  match dict_get name fields with
  | Some field => if decide (field_location field = loc) then Some field else None
  | None => None
  end.
Proof.
  intros Hwf. unfold group_fields. rewrite bucket_get_fold by done.
  by destruct (dict_get name fields).
Qed.

Lemma group_field_wf acc item : dict_wf acc -> dict_wf (group_field acc item).
Proof.
  destruct item as [name field]. intros Hwf. unfold group_field.
  apply dict_wf_set. destruct (dict_mem _ acc); [done | by apply dict_wf_set].
Qed.

Lemma group_fields_wf fields : dict_wf (group_fields fields).
Proof.
  unfold group_fields.
  assert (forall acc : pydict string (pydict string Field), dict_wf acc ->
            dict_wf (fold_left group_field fields acc)) as Hgen.
  { induction fields as [|item fields IH]; intros acc Hacc; simpl; [done|].
    apply IH. by apply group_field_wf. }
  apply Hgen. apply NoDup_nil_2.
Qed.

(** The composite schema of a declared parameter object: one nested
    sub-schema per bucket of the grouping, in the order of the buckets. *)
Lemma parse_parameter_schema_declared tfm p sig path_url http_verb :
  AutoMD.parse_parameter_schema tfm (Some p) sig path_url http_verb =
  Ok {| include :=
          nested_buckets (AutoMD.location_schema_name path_url http_verb)
            (group_fields (parameter_fields p)) |}.
Proof.
  unfold AutoMD.parse_parameter_schema, nested_buckets. simpl. do 2 f_equal.
  pose proof (group_fields_wf (parameter_fields p)) as Hwf.
  rewrite (fold_dict_set_fresh _
             (fun kv => Schema_from_dict (snd kv)
                          (AutoMD.location_schema_name path_url http_verb (fst kv)))).
  - simpl. rewrite dict_comprehension_wf.
    + by rewrite map_map.
    + unfold dict_wf, dict_keys. by rewrite map_map.
  - by intros acc [loc argmap].
  - done.
Qed.

Section Partition.
Context (name_of : string -> string).
Context (fields : pydict string Field) (Hwf : dict_wf fields).

Local Abbreviation buckets := (nested_buckets name_of (group_fields fields)).

Lemma buckets_wf : dict_wf buckets.
Proof.
  unfold dict_wf, nested_buckets, dict_keys. rewrite map_map. simpl.
  apply group_fields_wf.
Qed.

Lemma buckets_lookup i loc b :
  buckets !! i = Some (loc, b) ->
  dict_get loc (group_fields fields) = Some (schema_fields (nested_schema b)).
Proof.
  unfold nested_buckets. rewrite list_lookup_fmap.
  destruct (group_fields fields !! i) as [[loc' argmap]|] eqn:Hi; [|done].
  intros [= <- <-]. simpl.
  by apply (dict_wf_lookup_get i), Hi; apply group_fields_wf.
Qed.

Lemma buckets_field i loc b name field :
  buckets !! i = Some (loc, b) ->
  dict_get name (schema_fields (nested_schema b)) = Some field <->
  dict_get name fields = Some field ∧ field_location field = loc.
Proof.
  intros Hb%buckets_lookup.
  pose proof (bucket_get_group_fields fields loc name Hwf) as Hget.
  unfold bucket_get in Hget. rewrite Hb in Hget. simpl in Hget. rewrite Hget.
  destruct (dict_get name fields) as [f|]; case_solve.
Qed.

Lemma buckets_index i j loc bi bj :
  buckets !! i = Some (loc, bi) -> buckets !! j = Some (loc, bj) -> i = j.
Proof.
  intros Hi Hj.
  apply (NoDup_lookup _ i j loc buckets_wf); unfold dict_keys;
    rewrite list_lookup_fmap; [by rewrite Hi | by rewrite Hj].
Qed.

Lemma buckets_placed name field :
  dict_get name fields = Some field ->
  exists i b, buckets !! i = Some (field_location field, b) ∧
              dict_get name (schema_fields (nested_schema b)) = Some field.
Proof.
  intros Hget.
  pose proof (bucket_get_group_fields fields (field_location field) name Hwf) as Hb.
  rewrite Hget, decide_True in Hb by done. unfold bucket_get in Hb.
  destruct (dict_get (field_location field) (group_fields fields))
    as [argmap|] eqn:Hloc; [|done].
  simpl in Hb. apply dict_get_Some_elem_of, list_elem_of_lookup in Hloc as [i Hi].
  exists i, {| nested_schema :=
                 Schema_from_dict argmap (name_of (field_location field));
               nested_location := field_location field;
               nested_name := Some (field_location field) |}.
  split; [|exact Hb].
  unfold nested_buckets. rewrite list_lookup_fmap, Hi. done.
Qed.

End Partition.

Lemma elem_of_bucket_keys name b :
  name ∈ bucket_keys b <->
  is_Some (dict_get name (schema_fields (nested_schema b))).
Proof.
  unfold bucket_keys. by rewrite elem_of_list_to_set, dict_get_is_Some_keys.
Qed.

(** C1.  The composite schema of a dictionary of fields (or of a schema
    with such [fields]) partitions the fields by location: the field
    names of the buckets together are the names given, two different
    buckets share no name, every field sits in the bucket of its own
    location and in no other, a field that declares no location sits in
    the ["query"] bucket, and no field at all gives no bucket. *)
Theorem parse_parameter_schema_partition
    tfm (p : parameter_object) sig path_url http_verb :
  dict_wf (parameter_fields p) ->
  exists ps,
    AutoMD.parse_parameter_schema tfm (Some p) sig path_url http_verb = Ok ps ∧
    ⋃ (bucket_keys <$> (include ps).*2) =
      list_to_set (dict_keys (parameter_fields p)) ∧
    (forall i j li bi lj bj,
       i ≠ j -> include ps !! i = Some (li, bi) -> include ps !! j = Some (lj, bj) ->
       bucket_keys bi ## bucket_keys bj) ∧
    (forall name field,
       (name, field) ∈ parameter_fields p ->
       exists i b,
         include ps !! i = Some (field_location field, b) ∧
         dict_get name (schema_fields (nested_schema b)) = Some field ∧
         forall j lj bj,
           include ps !! j = Some (lj, bj) -> name ∈ bucket_keys bj -> j = i) ∧
    (forall name field,
       (name, field) ∈ parameter_fields p -> location field = None ->
       exists b,
         dict_get "query" (include ps) = Some b ∧
         dict_get name (schema_fields (nested_schema b)) = Some field) ∧
    (parameter_fields p = [] -> include ps = []).
Proof.
  intros Hwf. eexists. split; [apply parse_parameter_schema_declared|]. simpl.
  set (name_of := AutoMD.location_schema_name path_url http_verb).
  set (fields := parameter_fields p) in *.
  assert (forall name field, (name, field) ∈ fields ->
            exists i b,
              nested_buckets name_of (group_fields fields) !! i
                = Some (field_location field, b) ∧
              dict_get name (schema_fields (nested_schema b)) = Some field ∧
              forall j lj bj,
                nested_buckets name_of (group_fields fields) !! j = Some (lj, bj) ->
                name ∈ bucket_keys bj -> j = i) as Hplaced.
  { intros name field Hin%(dict_wf_elem_of_get _ _ _ Hwf).
    destruct (buckets_placed name_of fields Hwf name field Hin) as (i & b & Hi & Hb).
    exists i, b. split_and!; [done..|].
    intros j lj bj Hj [f Hf]%elem_of_bucket_keys.
    apply (buckets_field name_of fields Hwf j lj bj name f Hj) in Hf as [Hf <-].
    rewrite Hin in Hf. injection Hf as <-.
    by apply (buckets_index name_of fields _ _ _ _ _ Hj Hi). }
  split_and!.
  - apply set_eq. intros name.
    rewrite elem_of_union_list, elem_of_list_to_set, <- dict_get_is_Some_keys.
    split.
    + intros (X & HX & Hname).
      apply list_elem_of_fmap in HX as (b & -> & Hb).
      apply list_elem_of_fmap in Hb as ([loc b'] & -> & Hb).
      apply list_elem_of_lookup in Hb as [i Hi]. simpl in Hname.
      apply elem_of_bucket_keys in Hname as [f Hf].
      apply (buckets_field name_of fields Hwf i loc b' name f Hi) in Hf as [Hf _].
      by exists f.
    + intros [f Hf].
      destruct (buckets_placed name_of fields Hwf name f Hf) as (i & b & Hi & Hb).
      exists (bucket_keys b). split.
      * apply list_elem_of_fmap. exists b. split; [done|].
        apply list_elem_of_fmap. exists (field_location f, b). split; [done|].
        apply list_elem_of_lookup. by exists i.
      * apply elem_of_bucket_keys. by exists f.
  - intros i j li bi lj bj Hij Hi Hj name
      [fi Hfi]%elem_of_bucket_keys [fj Hfj]%elem_of_bucket_keys.
    apply (buckets_field name_of fields Hwf i li bi name fi Hi) in Hfi as [Hfi <-].
    apply (buckets_field name_of fields Hwf j lj bj name fj Hj) in Hfj as [Hfj <-].
    rewrite Hfi in Hfj. injection Hfj as <-.
    apply Hij. by apply (buckets_index name_of fields _ _ _ _ _ Hi Hj).
  - exact Hplaced.
  - intros name field Hin Hloc.
    destruct (Hplaced name field Hin) as (i & b & Hi & Hb & _).
    exists b. split; [|done].
    replace "query" with (field_location field)
      by (unfold field_location; by rewrite Hloc).
    apply (dict_wf_lookup_get i); [apply buckets_wf | done].
  - by intros ->.
Qed.

Lemma parse_parameter_schema_partition_witness :
  let p := ParamDict
             [("text", mkField (fields_named "String") false false None []);
              ("json_text", mkField (fields_named "String") false false (Some "json") [])] in
  exists ps,
    AutoMD.parse_parameter_schema ∅ (Some p) None "/status" "POST" = Ok ps ∧
    dict_keys (include ps) = ["query"; "json"].
Proof.
  intros p.
  destruct (parse_parameter_schema_partition ∅ p None "/status" "POST")
    as (ps & Hps & _).
  { simpl. apply (bool_decide_unpack _). vm_compute. reflexivity. }
  exists ps. split; [exact Hps|].
  rewrite parse_parameter_schema_declared in Hps. injection Hps as <-.
  reflexivity.
Defined.

(** ** Response resolution *)

(** The content type of a resolved interface: what it reports, or the
    default when it has no [content_type]. *)
Lemma parse_response_schema_resolved table d path_url http_verb i :
  AutoMD.resolve_interface table d = Ok i ->
  AutoMD.parse_response_schema table d path_url http_verb =
  let* response_schema :=
    match i with
    | DNone =>
        Ok (Schema_from_dict [] (AutoMD.response_schema_name path_url http_verb))
    | _ => to_schema i
    end in
  Ok (response_schema,
      match content_type i with
      | Ok ct => ct
      | Raise _ => default_content_type
      end).
Proof.
  intros Hres. unfold AutoMD.parse_response_schema. rewrite Hres. simpl.
  destruct i as [|s|o]; simpl; try done.
  - destruct (py_to_schema o); simpl; [|done]. by destruct (py_content_type o).
Qed.

Lemma getattr_name_hashable d : hashable (getattr_name d) = true.
Proof. destruct d as [| |o]; try done. simpl. by destruct (py_name o) as [[s|]|]. Qed.

Lemma attr_name_getattr_name d n : attr_name d = Ok n -> getattr_name d = n.
Proof.
  destruct d as [| |o]; try done. simpl.
  destruct (py_name o) as [[s|]|]; by intros [= <-].
Qed.

Lemma attr_name_raise_getattr_name d e :
  attr_name d = Raise e -> getattr_name d = DNone.
Proof.
  destruct d as [| |o]; try done. simpl. by destruct (py_name o) as [[s|]|].
Qed.

(** Lines 127-132 on a hashable descriptor, by what the table holds. *)
Lemma resolve_interface_hashable table d :
  hashable d = true ->
  AutoMD.resolve_interface table d =
  match dict_get d table with
  | Some i => Ok i
  | None =>
      match dict_get (getattr_name d) table with
      | Some _ =>
          let* name := attr_name d in getitem descriptor_repr table name
      | None => Ok d
      end
  end.
Proof.
  intros Hd. unfold AutoMD.resolve_interface, contains_key, dict_mem, getitem.
  rewrite Hd, getattr_name_hashable. simpl.
  destruct (dict_get d table); simpl; [done|].
  by destruct (dict_get (getattr_name d) table).
Qed.

Lemma resolve_interface_unhashable table d :
  hashable d = false ->
  AutoMD.resolve_interface table d = Raise (TypeError "unhashable type").
Proof.
  intros Hd. unfold AutoMD.resolve_interface, contains_key. by rewrite Hd.
Qed.

(** C2, as stated, fails in two ways.  When [None] is a key of the
    table, a descriptor that is no key and has no [_name] is not used as
    its own interface: line 129 reads [None] through [getattr] and finds
    it, and line 130 raises on the missing attribute; and the null
    descriptor takes the table's entry instead of the empty schema.  A
    descriptor that cannot be hashed raises at line 127, whatever the
    table. *)
Lemma parse_response_schema_none_key_raises :
  let none_response :=
    DObj {| py_repr := "NoneResponse"; py_hashable := true; py_name := None;
            py_to_schema := Some (Schema_from_dict [] "NoneResponseSchema");
            py_content_type := Some "application/json" |} in
  let plain :=
    DObj {| py_repr := "Plain"; py_hashable := true; py_name := None;
            py_to_schema := Some (Schema_from_dict [] "PlainSchema");
            py_content_type := Some "text/html" |} in
  let unhashable :=
    DObj {| py_repr := "Unhashable"; py_hashable := false; py_name := None;
            py_to_schema := Some (Schema_from_dict [] "UnhashableSchema");
            py_content_type := Some "text/html" |} in
  let table := [(DNone, none_response)] in
  dict_get plain table = None ∧
  attr_name plain = Raise (AttributeError "Plain" "_name") ∧
  AutoMD.parse_response_schema table plain "/status" "GET"
    = Raise (AttributeError "Plain" "_name") ∧
  AutoMD.parse_response_schema table DNone "/status" "GET"
    = Ok (Schema_from_dict [] "NoneResponseSchema", "application/json") ∧
  AutoMD.parse_response_schema [] unhashable "/status" "GET"
    = Raise (TypeError "unhashable type").
Proof. by split_and!. Qed.

(** C2, amended.  For a descriptor that can be hashed, the interface is
    found in this order: the table's entry for the descriptor itself;
    else, when the descriptor has a [_name] attribute whose value is a
    key, the table's entry for that value; else, when the value that
    [getattr] reads for [_name] ([None] without the attribute) is no key
    either, the descriptor.  The interface found is the one asked for the
    schema and the content type.  A null descriptor, when [None] is no
    key of the table, gives the empty schema named after the path and the
    verb, with the default content type. *)
Theorem parse_response_schema_precedence table (d : descriptor) path_url http_verb :
  hashable d = true ->
  (forall i, dict_get d table = Some i ->
     AutoMD.resolve_interface table d = Ok i) ∧
  (forall n i, dict_get d table = None -> attr_name d = Ok n ->
     dict_get n table = Some i ->
     AutoMD.resolve_interface table d = Ok i) ∧
  (dict_get d table = None -> dict_get (getattr_name d) table = None ->
     AutoMD.resolve_interface table d = Ok d) ∧
  (forall i, AutoMD.resolve_interface table d = Ok i -> i ≠ DNone ->
     AutoMD.parse_response_schema table d path_url http_verb =
     let* response_schema := to_schema i in
     Ok (response_schema,
         match content_type i with
         | Ok ct => ct
         | Raise _ => default_content_type
         end)) ∧
  (d = DNone -> dict_get DNone table = None ->
     AutoMD.parse_response_schema table d path_url http_verb =
     Ok ({| schema_name :=
              url_name path_url +:+ str_title http_verb +:+ "ResponseSchema";
            schema_fields := [] |},
         "text/plain")).
Proof.
  intros Hhash. rewrite (resolve_interface_hashable table d Hhash).
  split_and!.
  - by intros i ->.
  - intros n i -> Hn Hi.
    rewrite (attr_name_getattr_name d n Hn), Hi, Hn. simpl.
    unfold getitem. by rewrite Hi.
  - by intros -> ->.
  - intros i Hres Hi.
    rewrite <- (resolve_interface_hashable table d Hhash) in Hres.
    rewrite (parse_response_schema_resolved _ _ _ _ i Hres). by destruct i.
  - intros -> Hd.
    rewrite (parse_response_schema_resolved _ _ _ _ DNone); [done|].
    rewrite (resolve_interface_hashable table DNone eq_refl). simpl.
    by rewrite Hd.
Qed.

Lemma parse_response_schema_precedence_witness :
  let value_response :=
    DObj {| py_repr := "ValueResponse"; py_hashable := true; py_name := None;
            py_to_schema := Some (Schema_from_dict [] "ValueResponseSchema");
            py_content_type := Some "application/json" |} in
  let list_of_str :=
    DObj {| py_repr := "typing.List[str]"; py_hashable := true;
            py_name := Some (Some "List");
            py_to_schema := None; py_content_type := None |} in
  let table := [(DStr "List", value_response)] in
  AutoMD.resolve_interface table list_of_str = Ok value_response ∧
  AutoMD.resolve_interface table value_response = Ok value_response.
Proof.
  intros value_response list_of_str table.
  destruct (parse_response_schema_precedence table list_of_str "/status" "GET"
              eq_refl) as (_ & Hname & _).
  destruct (parse_response_schema_precedence table value_response "/status" "GET"
              eq_refl) as (_ & _ & Hself & _).
  split.
  - by apply (Hname (DStr "List") value_response).
  - by apply Hself.
Defined.

(** C3, as stated, fails: a descriptor that is not in the table and has
    neither [to_schema] nor [content_type] lacks the content type, and the
    call raises the [AttributeError] of [to_schema]. *)
Lemma parse_response_schema_no_schema_raises :
  let d := DObj {| py_repr := "<class 'str'>"; py_hashable := true;
                   py_name := None;
                   py_to_schema := None; py_content_type := None |} in
  AutoMD.resolve_interface [] d = Ok d ∧
  content_type d = Raise (AttributeError "<class 'str'>" "content_type") ∧
  AutoMD.parse_response_schema [] d "/status" "GET" =
    Raise (AttributeError "<class 'str'>" "to_schema").
Proof. by split_and!. Qed.

(** C3, amended.  When the resolved interface has no [content_type] and
    is null or gives a schema, the call returns that schema with the
    content type ["text/plain"], which is not empty.  A missing content
    type alone never makes the call fail: a call that fails on such an
    interface fails with the error of [to_schema]. *)
Theorem parse_response_schema_default_content_type
    table d path_url http_verb i obj attr :
  AutoMD.resolve_interface table d = Ok i ->
  content_type i = Raise (AttributeError obj attr) ->
  (forall schema,
     (i = DNone ∧
      schema = Schema_from_dict [] (AutoMD.response_schema_name path_url http_verb))
     ∨ to_schema i = Ok schema ->
     AutoMD.parse_response_schema table d path_url http_verb =
       Ok (schema, "text/plain")) ∧
  "text/plain" ≠ "" ∧
  (forall e, AutoMD.parse_response_schema table d path_url http_verb = Raise e ->
     i ≠ DNone ∧ to_schema i = Raise e).
Proof.
  intros Hres Hct.
  rewrite (parse_response_schema_resolved _ _ _ _ i Hres), Hct.
  split_and!; [|done|].
  - intros schema [[-> ->]|Hs]; [done|].
    destruct i as [|s|o]; [done|done|]. by rewrite Hs.
  - intros e He. destruct i as [|s|o]; [done| |].
    + split; [done|]. simpl in *. by simplify_eq.
    + split; [done|]. simpl in *.
      destruct (py_to_schema o); simpl in *; by simplify_eq.
Qed.

Lemma parse_response_schema_default_content_type_witness :
  let d := DObj {| py_repr := "Plain"; py_hashable := true; py_name := None;
                   py_to_schema := Some (Schema_from_dict [] "PlainSchema");
                   py_content_type := None |} in
  AutoMD.parse_response_schema [] d "/status" "GET" =
    Ok (Schema_from_dict [] "PlainSchema", "text/plain").
Proof.
  intros d.
  apply (parse_response_schema_default_content_type
           [] d "/status" "GET" d "Plain" "content_type");
    [reflexivity | reflexivity | right; reflexivity].
Defined.

(** ** Type inference *)

Section Inference.
Context (tfm : gmap string field_class).

(** The field inferred for a parameter whose annotation maps to [cls]. *)
Lemma infer_parameter_mapped acc name param cls :
  name ≠ "self" -> tfm !! param_annotation param = Some cls ->
  AutoMD.infer_parameter tfm acc (name, param) =
  Ok (dict_set name (AutoMD.inferred_field cls param) acc).
Proof.
  intros Hname Hcls. unfold AutoMD.infer_parameter, AutoMD.field_class_of.
  rewrite decide_False by done. by rewrite Hcls.
Qed.


Lemma infer_parameter_self acc param :
  AutoMD.infer_parameter tfm acc ("self", param) = Ok acc.
Proof. done. Qed.



(** When every parameter but [self] has a mapped annotation the loop ends
    and gives a well-formed dictionary that holds, for each such
    parameter, the field inferred for it. *)
Lemma infer_parameters_mapped params : forall acc,
  dict_wf params -> dict_wf acc ->
  (forall n p, (n, p) ∈ params -> n ≠ "self" ->
     is_Some (tfm !! param_annotation p)) ->
  exists d,
    for_each (AutoMD.infer_parameter tfm) params acc = Ok d ∧
    dict_wf d ∧
    forall name,
      dict_get name d =
      match dict_get name params with
      | Some param =>
          if decide (name = "self") then dict_get name acc
          else cls ← tfm !! param_annotation param;
               Some (AutoMD.inferred_field cls param)
      | None => dict_get name acc
      end.
Proof.
  unfold dict_wf at 1. unfold dict_keys.
  induction params as [|[n p] params IH]; intros acc Hwf Hacc Hmapped.
  - exists acc. by split_and!.
  - cbn [map fst] in Hwf. apply NoDup_cons in Hwf as [Hfresh Hwf].
    apply dict_get_None_keys in Hfresh.
    cbn [for_each dict_get].
    destruct (decide (n = "self")) as [->|Hn].
    + rewrite infer_parameter_self. cbn [bind].
      destruct (IH acc Hwf Hacc) as (d & Hd & Hdwf & Hget).
      { intros n' p' Hin. apply Hmapped. by apply list_elem_of_further. }
      exists d. split_and!; [done..|].
      intros name. rewrite Hget.
      destruct (decide (name = "self")) as [->|Hne]; [by rewrite Hfresh|].
      done.
    + destruct (Hmapped n p (list_elem_of_here _ _) Hn) as [cls Hcls].
      rewrite (infer_parameter_mapped _ _ _ cls) by done. cbn [bind].
      destruct (IH (dict_set n (AutoMD.inferred_field cls p) acc) Hwf) as (d & Hd & Hdwf & Hget).
      { by apply dict_wf_set. }
      { intros n' p' Hin. apply Hmapped. by apply list_elem_of_further. }
      exists d. split_and!; [done..|].
      intros name. rewrite Hget.
      destruct (decide (name = n)) as [->|Hne].
      * rewrite Hfresh, dict_get_set_eq, decide_False by done.
        by rewrite Hcls.
      * rewrite dict_get_set_ne by done. done.
Qed.

End Inference.

Lemma inferred_field_facts cls param :
  location (AutoMD.inferred_field cls param) = None ∧
  field_cls (AutoMD.inferred_field cls param) = cls ∧
  (required (AutoMD.inferred_field cls param) = true <-> param_default param = None) ∧
  dict_get "doc_default" (metadata (AutoMD.inferred_field cls param))
    = param_default param.
Proof.
  unfold AutoMD.inferred_field, AutoMD.signature_field_args.
  destruct param as [ann [d|]]; simpl;
    destruct (bool_decide (cls ∈ [fields_Raw; fields_Field]));
    try destruct (decide (d = PyNone));
    (split_and!;
       [reflexivity | reflexivity
       | simpl; split; intros H; first [reflexivity | discriminate H]
       | reflexivity]).
Qed.

(** The composite schema of a signature is that of the dictionary of the
    inferred fields. *)
Lemma parse_parameter_schema_inferred tfm sig path_url http_verb d :
  for_each (AutoMD.infer_parameter tfm) (parameters sig) [] = Ok d ->
  AutoMD.parse_parameter_schema tfm None (Some sig) path_url http_verb =
  AutoMD.parse_parameter_schema tfm (Some (ParamDict d)) None path_url http_verb.
Proof.
  intros Hd. unfold AutoMD.parse_parameter_schema, AutoMD.infer_parameters.
  by rewrite Hd.
Qed.

(** C4.  For a signature whose parameters other than [self] all have a
    mapped annotation, the composite schema holds, in its ["query"]
    bucket, one field per such parameter; the field is required exactly
    when the parameter declares no default, its [doc_default] is the
    declared default (and is absent when none is declared), and its class
    is the table's entry for the annotation. *)
Theorem inferred_field_required_iff_no_default
    tfm sig path_url http_verb name param :
  dict_wf (parameters sig) ->
  (forall n p, (n, p) ∈ parameters sig -> n ≠ "self" ->
     is_Some (tfm !! param_annotation p)) ->
  (name, param) ∈ parameters sig -> name ≠ "self" ->
  exists ps b field,
    AutoMD.parse_parameter_schema tfm None (Some sig) path_url http_verb = Ok ps ∧
    dict_get "query" (include ps) = Some b ∧
    dict_get name (schema_fields (nested_schema b)) = Some field ∧
    (required field = true <-> param_default param = None) ∧
    dict_get "doc_default" (metadata field) = param_default param ∧
    tfm !! param_annotation param = Some (field_cls field).
Proof.
  intros Hwf Hmapped Hin Hname.
  destruct (infer_parameters_mapped tfm (parameters sig) [] Hwf)
    as (d & Hd & Hdwf & Hget); [apply NoDup_nil_2 | done |].
  destruct (Hmapped name param Hin Hname) as [cls Hcls].
  specialize (Hget name).
  rewrite (dict_wf_elem_of_get _ _ _ Hwf Hin), decide_False, Hcls in Hget by done.
  simpl in Hget.
  destruct (inferred_field_facts cls param) as (Hloc & Hfc & Hreq & Hdoc).
  destruct (buckets_placed (AutoMD.location_schema_name path_url http_verb)
              d Hdwf name _ Hget) as (i & b & Hi & Hb).
  exists {| include :=
              nested_buckets (AutoMD.location_schema_name path_url http_verb)
                (group_fields d) |}, b, (AutoMD.inferred_field cls param).
  split_and!; try done.
  - rewrite (parse_parameter_schema_inferred _ _ _ _ d Hd).
    apply parse_parameter_schema_declared.
  - simpl. apply (dict_wf_lookup_get i); [apply buckets_wf|].
    unfold field_location in Hi. by rewrite Hloc in Hi.
Qed.

Lemma inferred_field_required_iff_no_default_witness :
  let tfm : gmap string field_class := {[ "str" := fields_named "String" ]} in
  let sig :=
    {| parameters :=
         [("self", {| param_annotation := "inspect._empty"; param_default := None |});
          ("text", {| param_annotation := "str";
                      param_default := Some (PyStr "Hello AutoMD") |})] |} in
  exists ps b field,
    AutoMD.parse_parameter_schema tfm None (Some sig) "/status" "GET" = Ok ps ∧
    dict_get "query" (include ps) = Some b ∧
    dict_get "text" (schema_fields (nested_schema b)) = Some field ∧
    required field = false ∧
    field_cls field = fields_named "String" ∧
    dict_get "doc_default" (metadata field) = Some (PyStr "Hello AutoMD").
Proof.
  intros tfm sig.
  destruct (inferred_field_required_iff_no_default tfm sig "/status" "GET" "text"
              {| param_annotation := "str";
                 param_default := Some (PyStr "Hello AutoMD") |})
    as (ps & b & field & Hps & Hb & Hfield & Hreq & Hdoc & Hcls).
  - apply (bool_decide_unpack _). vm_compute. reflexivity.
  - intros n p Hin Hn. simpl in Hin.
    apply elem_of_cons in Hin as [[= -> ->]|Hin]; [done|].
    apply list_elem_of_singleton in Hin as [= -> ->].
    unfold tfm. simpl. rewrite lookup_singleton_eq. by eexists.
  - simpl. apply list_elem_of_further, list_elem_of_here.
  - done.
  - exists ps, b, field. split_and!; try done.
    + destruct (required field); [|done]. by destruct Hreq as [Hreq _]; specialize (Hreq eq_refl).
    + unfold tfm in Hcls. simpl in Hcls. rewrite lookup_singleton_eq in Hcls.
      by injection Hcls as <-.
Defined.

(** C5.  A parameter whose default is [None] gets the keyword argument
    [allow_none=None], not [allow_none=True]: [None] is falsy and is the
    constructor's own "not given" value, so the field that is built does
    not accept [None].  Shown for every annotation and field class, and
    on the signature [(self, a_tuple: Tuple = None)]. *)
Theorem inferred_field_none_default_allow_none cls ann :
  let param := {| param_annotation := ann; param_default := Some PyNone |} in
  dict_get "allow_none" (AutoMD.signature_field_args param) = Some PyNone ∧
  truthy PyNone = false ∧
  allow_none (AutoMD.inferred_field cls param) = false ∧
  AutoMD.parse_parameter_schema {[ "typing.Tuple" := fields_named "Tuple" ]} None
    (Some {| parameters :=
               [("self", {| param_annotation := "inspect._empty";
                            param_default := None |});
                ("a_tuple", {| param_annotation := "typing.Tuple";
                               param_default := Some PyNone |})] |})
    "/introspection" "POST" =
  Ok {| include :=
          [("query",
            {| nested_schema :=
                 {| schema_name := "IntrospectionPostQuerySchema";
                    schema_fields :=
                      [("a_tuple",
                        {| field_cls := fields_named "Tuple";
                           required := false;
                           allow_none := false;
                           location := None;
                           metadata := [("doc_default", PyNone)] |})] |};
               nested_location := "query";
               nested_name := Some "query" |})] |}.
Proof.
  intros param. split_and!; try reflexivity.
  unfold AutoMD.inferred_field.
  by destruct (bool_decide (cls ∈ [fields_Raw; fields_Field])).
Qed.




(** ** Registration *)

Lemma dict_set_set {K V : Type} `{EqDecision K} (k : K) (v1 v2 : V) (d : pydict K V) :
  dict_set k v2 (dict_set k v1 d) = dict_set k v2 d.
Proof.
  induction d as [|[k' v'] d IH]; simpl.
  - by rewrite decide_True.
  - destruct (decide (k = k')) as [->|Hne]; simpl.
    + by rewrite decide_True.
    + rewrite decide_False by done. by rewrite IH.
Qed.

(** Registering one verb at a path fills or overwrites exactly that
    entry. *)
Lemma spec_operation_APISpec_path api_spec path verb op path' verb' :
  spec_operation (APISpec_path api_spec path [(verb, op)]) path' verb' =
  if decide (path' = path ∧ verb' = verb) then Some op
  else spec_operation api_spec path' verb'.
Proof.
  unfold spec_operation, APISpec_path, dict_update. simpl.
  rewrite dict_get_set.
  destruct (decide (path = path')) as [<-|Hp]; simpl.
  - rewrite dict_get_set.
    destruct (dict_get path (spec_paths api_spec)) as [ops|]; simpl;
      case_solve.
  - case_solve.
Qed.

Section Registration.
Context (tfm : gmap string field_class).
Context (table : pydict descriptor descriptor).
Context (responses : gmap Z string).

(** The dictionary of operations holds one operation, under the verb in
    lower case, with the tags given or else the default tag. *)
Lemma operations_inv self path_url http_verb response_code summary description
    parameter_object response_object func_signature tags ops :
  AutoMD.operations tfm table responses self path_url http_verb response_code
    summary description parameter_object response_object func_signature tags
    = Ok ops ->
  exists op,
    ops = [(str_lower http_verb, op)] ∧
    op_tags op = tags_or tags (AutoMD.default_tag self) ∧
    dict_keys (op_responses op) = [str_of_int response_code] ∧
    op_summary op = summary ∧ op_description op = description.
Proof.
  unfold AutoMD.operations. intros Hops.
  destruct (AutoMD.parse_parameter_schema _ _ _ _ _) as [ps|]; [|done].
  simpl in Hops.
  destruct (AutoMD.parse_response_schema _ _ _ _) as [[rs ct]|]; [|done].
  simpl in Hops.
  destruct (AutoMD.status_phrase _ _) as [phrase|]; [|done].
  simpl in Hops. injection Hops as <-. eexists. by split_and!.
Qed.

Lemma tags_or_nonempty tags default_tag : tags_or tags default_tag ≠ [].
Proof. by destruct tags as [[|t ts]|]. Qed.

End Registration.

(** ** Loops *)

Lemma for_each_invariant {A S : Type} (I : S -> Prop)
    (body : S -> A -> result S) (xs : list A) : forall s s',
  (forall s x s', I s -> body s x = Ok s' -> I s') ->
  I s -> for_each body xs s = Ok s' -> I s'.
Proof.
  induction xs as [|x xs IH]; intros s s' Hbody Hs; simpl.
  - by intros [= <-].
  - destruct (body s x) as [s1|e] eqn:Hstep; simpl; [|done].
    apply IH; [done|]. by apply (Hbody s x).
Qed.


Section Build.
Context (tfm : gmap string field_class).
Context (table : pydict descriptor descriptor).
Context (responses : gmap Z string).

Lemma register_path_all_tagged self api_spec path_url http_verb response_code
    summary description parameter_object response_object func_signature tags
    api_spec' :
  all_tagged api_spec ->
  AutoMD.register_path tfm table responses self api_spec path_url http_verb
    response_code summary description parameter_object response_object
    func_signature tags = Ok api_spec' ->
  all_tagged api_spec'.
Proof.
  intros Hall. unfold AutoMD.register_path.
  destruct (AutoMD.operations _ _ _ _ _ _ _ _ _ _ _ _ _) as [ops|] eqn:Hops;
    [|done].
  apply operations_inv in Hops as (op & -> & Htags & _).
  simpl. intros [= <-] path verb op'.
  rewrite spec_operation_APISpec_path. case_decide.
  - intros [= <-]. rewrite Htags. apply tags_or_nonempty.
  - apply Hall.
Qed.

Lemma document_method_all_tagged self view api_spec method api_spec' :
  all_tagged api_spec ->
  AutoMD.document_method tfm table responses self view api_spec method
    = Ok api_spec' ->
  all_tagged api_spec'.
Proof.
  intros Hall. unfold AutoMD.document_method.
  destruct (dict_get _ (view_class view)) as [h|]; [|done]. simpl.
  destruct (handler_spec h) as [md|]; [|by intros [= <-]].
  destruct (AutoMD.response_200 _) as [d|]; [|done]. simpl.
  by apply register_path_all_tagged.
Qed.

Lemma application_to_apispec_all_tagged self app api_spec :
  AutoMD.application_to_apispec tfm table responses self app = Ok api_spec ->
  all_tagged api_spec.
Proof.
  unfold AutoMD.application_to_apispec.
  apply (for_each_invariant all_tagged); [|done].
  intros s [name view] s' Hs. unfold AutoMD.document_view. simpl.
  destruct (methods view) as [ms|]; [|by intros [= <-]].
  apply (for_each_invariant all_tagged); [|done].
  intros s1 m s2. apply document_method_all_tagged.
Qed.

End Build.

(** C7.  The operation that [register_path] stores has the tags given by
    the caller when there are some, and else the one default tag, whose
    name is the [default_tag] given at construction or, without one, the
    title; so it always has a tag, and so has every operation of a
    document that [application_to_apispec] returns. *)
Theorem registered_operation_tags_nonempty tfm table responses :
  (forall title app_version openapi_version info default_tag,
     AutoMD.default_tag
       (AutoMD.init title app_version openapi_version info default_tag)
     = [("name", str_or default_tag title)]) ∧
  (forall self api_spec path_url http_verb response_code summary description
          parameter_object response_object func_signature tags api_spec',
     AutoMD.register_path tfm table responses self api_spec path_url http_verb
       response_code summary description parameter_object response_object
       func_signature tags = Ok api_spec' ->
     exists op,
       spec_operation api_spec' path_url (str_lower http_verb) = Some op ∧
       op_tags op ≠ [] ∧
       (tags = None ∨ tags = Some [] -> op_tags op = [AutoMD.default_tag self]) ∧
       (forall t ts, tags = Some (t :: ts) -> op_tags op = t :: ts)) ∧
  (forall self app api_spec,
     AutoMD.application_to_apispec tfm table responses self app = Ok api_spec ->
     forall path verb op,
       spec_operation api_spec path verb = Some op -> op_tags op ≠ []).
Proof.
  split_and!.
  - done.
  - intros self api_spec path_url http_verb response_code summary description
      parameter_object response_object func_signature tags api_spec'.
    unfold AutoMD.register_path.
    destruct (AutoMD.operations _ _ _ _ _ _ _ _ _ _ _ _ _) as [ops|] eqn:Hops;
      [|done].
    apply operations_inv in Hops as (op & -> & Htags & _).
    simpl. intros [= <-]. exists op. split_and!.
    + rewrite spec_operation_APISpec_path. by rewrite decide_True.
    + rewrite Htags. apply tags_or_nonempty.
    + rewrite Htags. by intros [-> | ->].
    + rewrite Htags. by intros t ts ->.
  - intros self app api_spec Hbuild.
    by apply (application_to_apispec_all_tagged _ _ _ _ _ _ Hbuild).
Qed.


(** ** Registration, with identities *)

Section MapValues.
Context {K A B : Type} `{EqDecision K} (f : A -> B).

Lemma dict_get_map_values k (d : pydict K A) :
  dict_get k (map (fun kv => (fst kv, f (snd kv))) d) = f <$> dict_get k d.
Proof.
  induction d as [|[k' a] d IH]; simpl; [done|]. by case_decide.
Qed.

Lemma dict_set_map_values k a (d : pydict K A) :
  dict_set k (f a) (map (fun kv => (fst kv, f (snd kv))) d) =
  map (fun kv => (fst kv, f (snd kv))) (dict_set k a d).
Proof.
  induction d as [|[k' a'] d IH]; simpl; [done|].
  case_decide; simpl; [done | by rewrite IH].
Qed.

Lemma dict_update_map_values (d other : pydict K A) :
  dict_update (map (fun kv => (fst kv, f (snd kv))) d)
              (map (fun kv => (fst kv, f (snd kv))) other) =
  map (fun kv => (fst kv, f (snd kv))) (dict_update d other).
Proof.
  unfold dict_update. revert d.
  induction other as [|[k a] other IH]; intros d; simpl; [done|].
  by rewrite dict_set_map_values, IH.
Qed.

End MapValues.

Lemma erase_operations_update (d other : pydict string StoredOperation) :
  erase_operations (dict_update d other) =
  dict_update (erase_operations d) (erase_operations other).
Proof.
  unfold erase_operations. by rewrite (dict_update_map_values stored_operation).
Qed.

Lemma erase_operations_stored call (operations : pydict string Operation) :
  erase_operations
    (map (fun kv => (fst kv, {| stored_call := call; stored_operation := snd kv |}))
         operations) = operations.
Proof.
  unfold erase_operations. rewrite map_map. simpl.
  induction operations as [|[v op] ops IH]; simpl; [done | by rewrite IH].
Qed.

(** Forgetting the identities turns a registration with identities into
    the registration of [api_spec.path]. *)
Lemma erase_paths_Document_path doc api_spec path operations :
  spec_paths api_spec = erase_paths doc ->
  spec_paths (APISpec_path api_spec path operations) =
  erase_paths (Document_path doc path operations).
Proof.
  intros Hpaths. unfold APISpec_path, Document_path, erase_paths in *. simpl.
  rewrite Hpaths, (dict_get_map_values erase_operations),
    <- (dict_set_map_values erase_operations).
  f_equal. rewrite erase_operations_update, erase_operations_stored. f_equal.
  destruct (dict_get path (doc_paths doc)); simpl; [done|].
  by rewrite erase_operations_stored.
Qed.



(** The registration with identities stores what [register_path] stores:
    without the identities the two path tables are the same. *)
Lemma register_path_stored_erases
    tfm table responses self doc api_spec path_url http_verb response_code
    summary description parameter_object response_object func_signature tags :
  spec_paths api_spec = erase_paths doc ->
  match
    AutoMD.register_path_stored tfm table responses self doc path_url http_verb
      response_code summary description parameter_object response_object
      func_signature tags,
    AutoMD.register_path tfm table responses self api_spec path_url http_verb
      response_code summary description parameter_object response_object
      func_signature tags
  with
  | Ok doc', Ok api_spec' => spec_paths api_spec' = erase_paths doc'
  | Raise e, Raise e' => e = e'
  | _, _ => False
  end.
Proof.
  intros Hpaths. unfold AutoMD.register_path_stored, AutoMD.register_path.
  destruct (AutoMD.operations _ _ _ _ _ _ _ _ _ _ _ _ _) as [ops|]; simpl;
    [|done].
  by apply erase_paths_Document_path.
Qed.




(** ** Introspection *)


Section Introspection.
Context (tfm : gmap string field_class).
Context (table : pydict descriptor descriptor).
Context (responses : gmap Z string).

Lemma automd_document_method_handler self view api_spec method h md :
  dict_get (str_lower method) (view_class view) = Some h ->
  handler_spec h = Some md ->
  AutoMD.document_method tfm table responses self view api_spec method =
  let* response_object := AutoMD.response_200 (md_response_schemas md) in
  AutoMD.register_path tfm table responses self api_spec (view_url view) method
    200 (md_summary md) (md_description md) (md_parameter_schema md)
    response_object (md_func_signature md) (md_tags md).
Proof.
  intros Hh Hmd. unfold AutoMD.document_method. rewrite Hh. simpl.
  by rewrite Hmd.
Qed.





End Introspection.


(** C10.  On the null descriptor, when the table does not list it,
    [AutoMD.parse_response_schema] returns the empty schema named after
    the path and the verb with the default content type, and
    [AutoMD.register_path] goes on to register the operation, whereas
    [AutoAPI.register_path] resolves the null interface and raises the
    [AttributeError] of [to_schema] on it (and, when it is given no
    parameter object either, an [AttributeError] before that). *)
Theorem null_response_fallback_only_in_AutoMD
    tfm table responses table' responses' self self' api_spec path_url http_verb
    response_code summary description p parameter_object func_signature tags :
  dict_get DNone table = None ->
  dict_get DNone table' = None ->
  AutoMD.parse_response_schema table DNone path_url http_verb =
    Ok ({| schema_name :=
             url_name path_url +:+ str_title http_verb +:+ "ResponseSchema";
           schema_fields := [] |},
        "text/plain") ∧
  (forall phrase, responses !! response_code = Some phrase ->
     exists api_spec',
       AutoMD.register_path tfm table responses self api_spec path_url http_verb
         response_code summary description (Some p) DNone func_signature tags
         = Ok api_spec') ∧
  AutoAPI.resolve_interface table' DNone = Ok DNone ∧
  to_schema DNone = Raise (AttributeError "NoneType" "to_schema") ∧
  AutoAPI.register_path table' responses' self' api_spec path_url http_verb
    response_code summary description (Some p) DNone tags
    = Raise (AttributeError "NoneType" "to_schema") ∧
  exists obj attr,
    AutoAPI.register_path table' responses' self' api_spec path_url http_verb
      response_code summary description parameter_object DNone tags
      = Raise (AttributeError obj attr).
Proof.
  intros Hnone Hnone'.
  assert (AutoMD.parse_response_schema table DNone path_url http_verb =
          Ok (Schema_from_dict [] (AutoMD.response_schema_name path_url http_verb),
              default_content_type)) as Hparse.
  { rewrite (parse_response_schema_resolved _ _ _ _ DNone); [done|].
    rewrite (resolve_interface_hashable table DNone eq_refl). simpl.
    by rewrite Hnone. }
  assert (AutoAPI.resolve_interface table' DNone = Ok DNone) as Hres.
  { change (AutoAPI.resolve_interface table' DNone)
      with (AutoMD.resolve_interface table' DNone).
    rewrite (resolve_interface_hashable table' DNone eq_refl). simpl.
    by rewrite Hnone'. }
  split_and!; [done| |done|done| |].
  - intros phrase Hphrase. unfold AutoMD.register_path, AutoMD.operations.
    rewrite parse_parameter_schema_declared, Hparse. simpl.
    unfold AutoMD.status_phrase. rewrite Hphrase. simpl. by eexists.
  - unfold AutoAPI.register_path, AutoAPI.operations. simpl.
    by rewrite Hres.
  - unfold AutoAPI.register_path, AutoAPI.operations.
    destruct parameter_object as [p'|]; simpl.
    + rewrite Hres. simpl. by do 2 eexists.
    + by do 2 eexists.
Qed.

Lemma null_response_fallback_only_in_AutoMD_witness :
  let self := AutoMD.init "App" "1.0.0" "3.0.0" None None in
  let self' := AutoAPI.init "App" "1.0.0" "3.0.0" None None in
  let p := ParamDict [("text", mkField (fields_named "String") false false None [])] in
  AutoMD.parse_response_schema [] DNone "/status" "GET" =
    Ok ({| schema_name := "StatusGetResponseSchema"; schema_fields := [] |},
        "text/plain") ∧
  AutoAPI.register_path [] {[ 200%Z := "OK" ]} self' (AutoAPI.start_spec self')
    "/status" "GET" 200 None None (Some p) DNone None
    = Raise (AttributeError "NoneType" "to_schema").
Proof.
  intros self self' p.
  destruct (null_response_fallback_only_in_AutoMD
              ∅ [] {[ 200%Z := "OK" ]} [] {[ 200%Z := "OK" ]} self self'
              (AutoAPI.start_spec self') "/status" "GET" 200 None None p None
              None None)
    as (Hmd & _ & _ & _ & Hapi & _); [reflexivity | reflexivity |].
  split; [exact Hmd | exact Hapi].
Defined.

(** ** A small application

    One view at [/status] whose [get] handler declares an optional query
    field [text] and a response object with its own schema and content
    type, as in [automd_testapp/endpoints/status.py]. *)

Example status_app_build :
  let self := AutoMD.init "AutoMD Test App" "1.0.0" "3.0.0" None None in
  let text :=
    {| field_cls := fields_named "String"; required := false; allow_none := false;
       location := None;
       metadata := [("description", PyStr "Text to return");
                    ("doc_default", PyStr "Hello AutoMD")] |} in
  let value_response :=
    DObj {| py_repr := "ValueResponse"; py_hashable := true;
            py_name := None;
            py_to_schema := Some (Schema_from_dict [] "ValueResponseSchema");
            py_content_type := Some "application/json" |} in
  let get :=
    {| handler_spec :=
         Some {| md_response_schemas := Some [("200", value_response)];
                 md_parameter_schema := Some (ParamDict [("text", text)]);
                 md_func_signature := None;
                 md_summary := Some "Status Endpoint";
                 md_description := None;
                 md_tags := None |} |} in
  let app :=
    {| view_functions :=
         [("static", {| methods := None; view_url := "/static"; view_class := [] |});
          ("status", {| methods := Some ["GET"]; view_url := "/status";
                        view_class := [("get", get)] |})] |} in
  exists api_spec op b,
    AutoMD.application_to_apispec ∅ [] {[ 200%Z := "OK" ]} self app = Ok api_spec ∧
    spec_operation api_spec "/status" "get" = Some op ∧
    op_tags op = [[("name", "AutoMD Test App")]] ∧
    dict_keys (op_responses op) = ["200"] ∧
    (entry_schema <$> op_parameters op) = [{| include := [("query", b)] |}] ∧
    schema_name (nested_schema b) = "StatusGetQuerySchema" ∧
    schema_fields (nested_schema b) = [("text", text)].
Proof. intros. do 3 eexists. split; [reflexivity|]. by split_and!. Qed.

Example status_app_without_200 :
  let self := AutoMD.init "AutoMD Test App" "1.0.0" "3.0.0" None None in
  let get :=
    {| handler_spec :=
         Some {| md_response_schemas := Some [("201", DNone)];
                 md_parameter_schema := Some (ParamDict []);
                 md_func_signature := None;
                 md_summary := None;
                 md_description := None;
                 md_tags := None |} |} in
  let app :=
    {| view_functions :=
         [("status", {| methods := Some ["GET"]; view_url := "/status";
                        view_class := [("get", get)] |})] |} in
  AutoMD.application_to_apispec ∅ [] {[ 200%Z := "OK" ]} self app
    = Raise (KeyError "200").
Proof. reflexivity. Qed.

(** * Further properties *)

(** ** Grouping as a group-by *)

Lemma first_occurrences_snoc {A : Type} `{EqDecision A} (l : list A) x :
  first_occurrences (l ++ [x]) =
  if bool_decide (x ∈ first_occurrences l) then first_occurrences l
  else first_occurrences l ++ [x].
Proof. unfold first_occurrences. by rewrite fold_left_app. Qed.

Lemma first_occurrences_NoDup {A : Type} `{EqDecision A} (l : list A) :
  NoDup (first_occurrences l).
Proof.
  induction l as [|x l IH] using rev_ind; [apply NoDup_nil_2|].
  rewrite first_occurrences_snoc. case_bool_decide; [done|].
  apply NoDup_app. split_and!; [done| |apply NoDup_singleton].
  by intros y Hy ->%list_elem_of_singleton.
Qed.

Lemma elem_of_first_occurrences {A : Type} `{EqDecision A} (l : list A) x :
  x ∈ first_occurrences l <-> x ∈ l.
Proof.
  induction l as [|y l IH] using rev_ind; [done|].
  rewrite first_occurrences_snoc, elem_of_app, list_elem_of_singleton, <- IH.
  case_bool_decide as Hy.
  - split; [tauto|]. intros [?| ->]; done.
  - by rewrite elem_of_app, list_elem_of_singleton.
Qed.

(** A dictionary that is computed key by key from a list of distinct
    keys: reading it, and storing under one of its keys. *)
Lemma dict_get_map_keys {K V : Type} `{EqDecision K} (g : K -> V) (ks : list K) k :
  dict_get k (map (fun k' => (k', g k')) ks) =
  if decide (k ∈ ks) then Some (g k) else None.
Proof.
  induction ks as [|k0 ks IH]; cbn [map dict_get].
  - case_decide as Hin; [by apply elem_of_nil in Hin | done].
  - destruct (decide (k = k0)) as [->|Hne].
    + rewrite decide_True; [done | apply list_elem_of_here].
    + rewrite IH. destruct (decide (k ∈ ks)) as [Hin|Hnin].
      * rewrite decide_True; [done | by apply list_elem_of_further].
      * rewrite decide_False; [done|].
        by intros [?|?]%elem_of_cons.
Qed.

Lemma dict_set_map_keys {K V : Type} `{EqDecision K} (g : K -> V) (ks : list K) k v :
  NoDup ks -> k ∈ ks ->
  dict_set k v (map (fun k' => (k', g k')) ks) =
  map (fun k' => (k', if decide (k' = k) then v else g k')) ks.
Proof.
  induction ks as [|k0 ks IH]; intros Hnd Hin; [by apply elem_of_nil in Hin|].
  apply NoDup_cons in Hnd as [Hfresh Hnd]. cbn [map dict_set].
  destruct (decide (k = k0)) as [->|Hne].
  - rewrite decide_True by done. f_equal.
    apply map_ext_in. intros k' Hk'%list_elem_of_In.
    rewrite decide_False; [done | by intros ->].
  - rewrite decide_False by done. f_equal. apply IH; [done|].
    by apply elem_of_cons in Hin as [?|?].
Qed.

Lemma fields_at_snoc loc fields name field :
  fields_at loc (fields ++ [(name, field)]) =
  fields_at loc fields ++
    (if decide (field_location field = loc) then [(name, field)] else []).
Proof.
  unfold fields_at. rewrite filter_app. by f_equal.
Qed.

Lemma fields_at_keys loc fields name :
  name ∈ dict_keys (fields_at loc fields) -> name ∈ dict_keys fields.
Proof.
  unfold dict_keys, fields_at. intros ([n f] & -> & Hin)%list_elem_of_fmap.
  apply list_elem_of_filter in Hin as [_ Hin].
  apply list_elem_of_fmap. by exists (n, f).
Qed.

Lemma fields_at_nil loc fields :
  loc ∉ map (fun kv => field_location (snd kv)) fields -> fields_at loc fields = [].
Proof.
  intros Hloc. unfold fields_at. induction fields as [|[n f] fields IH]; [done|].
  simpl in Hloc. apply not_elem_of_cons in Hloc as [Hne Hloc].
  rewrite filter_cons. simpl. rewrite decide_False by done. by apply IH.
Qed.

(** X1.  The grouping loop is a group-by that keeps the order of
    declaration: the buckets come in the order in which their locations
    first occur among the fields, and each bucket holds the fields of its
    location in the order in which they were given. *)
Theorem group_fields_group_by (fields : pydict string Field) :
  dict_wf fields ->
  group_fields fields =
  map (fun loc => (loc, fields_at loc fields))
      (first_occurrences (map (fun kv => field_location (snd kv)) fields)).
Proof.
  induction fields as [|[name field] fields IH] using rev_ind; intros Hwf; [done|].
  assert (dict_wf fields ∧ name ∉ dict_keys fields) as [Hwf' Hfresh].
  { unfold dict_wf, dict_keys in *. rewrite map_app in Hwf.
    apply NoDup_app in Hwf as (Hnd & Hdisj & _). split; [done|].
    intros Hin. apply (Hdisj name Hin). apply list_elem_of_here. }
  unfold group_fields. rewrite fold_left_app. simpl.
  fold (group_fields fields). rewrite (IH Hwf'). clear IH.
  rewrite map_app. simpl. rewrite first_occurrences_snoc.
  set (locs := first_occurrences (map (fun kv => field_location (snd kv)) fields)).
  pose proof (first_occurrences_NoDup
                (map (fun kv => field_location (snd kv)) fields)) as Hnd.
  fold locs in Hnd.
  unfold dict_mem. rewrite dict_get_map_keys.
  destruct (decide (field_location field ∈ locs)) as [Hin|Hnin].
  - rewrite bool_decide_eq_true_2 by done.
    rewrite dict_get_map_keys, decide_True by done. simpl.
    rewrite dict_set_map_keys by done.
    apply map_ext_in. intros loc Hloc. f_equal.
    rewrite fields_at_snoc. destruct (decide (loc = field_location field)) as [->|Hne].
    + rewrite decide_True by done. apply dict_set_fresh.
      apply dict_get_None_keys. intros Hk. by apply Hfresh, (fields_at_keys _ _ _ Hk).
    + rewrite decide_False by done. by rewrite app_nil_r.
  - rewrite bool_decide_eq_false_2 by done.
    rewrite dict_get_set_eq. simpl. rewrite dict_set_set.
    rewrite dict_set_fresh.
    2:{ rewrite dict_get_map_keys. by rewrite decide_False. }
    rewrite map_app. simpl. f_equal.
    + apply map_ext_in. intros loc Hloc%list_elem_of_In. f_equal.
      rewrite fields_at_snoc, decide_False; [by rewrite app_nil_r|].
      by intros <-.
    + rewrite fields_at_snoc, decide_True by done.
      rewrite fields_at_nil; [done|].
      intros Hl. by apply Hnin, elem_of_first_occurrences.
Qed.

Lemma group_fields_group_by_witness :
  let f loc := mkField (fields_named "String") false false loc [] in
  group_fields [("a", f (Some "json")); ("b", f None); ("c", f (Some "json"));
                ("d", f (Some "query"))] =
  [("json", [("a", f (Some "json")); ("c", f (Some "json"))]);
   ("query", [("b", f None); ("d", f (Some "query"))])].
Proof.
  intros f.
  rewrite (group_fields_group_by
             [("a", f (Some "json")); ("b", f None); ("c", f (Some "json"));
              ("d", f (Some "query"))]).
  - reflexivity.
  - apply (bool_decide_unpack _). vm_compute. reflexivity.
Defined.

(** ** Inference, as a whole *)

Lemma group_fields_snoc fields item :
  group_fields (fields ++ [item]) = group_field (group_fields fields) item.
Proof. unfold group_fields. by rewrite fold_left_app. Qed.

(** Fields that declare no location all go to one ["query"] bucket. *)
Lemma group_fields_all_query (fields : pydict string Field) :
  dict_wf fields ->
  Forall (fun kv => location (snd kv) = None) fields ->
  group_fields fields = match fields with [] => [] | _ => [("query", fields)] end.
Proof.
  induction fields as [|[name field] fields IH] using rev_ind; intros Hwf Hloc;
    [done|].
  apply Forall_app in Hloc as [Hloc Hfield].
  apply Forall_inv in Hfield. simpl in Hfield.
  assert (dict_wf fields ∧ name ∉ dict_keys fields) as [Hwf' Hfresh].
  { unfold dict_wf, dict_keys in *. rewrite map_app in Hwf.
    apply NoDup_app in Hwf as (Hnd & Hdisj & _). split; [done|].
    intros Hin. apply (Hdisj name Hin). apply list_elem_of_here. }
  rewrite group_fields_snoc, (IH Hwf' Hloc).
  unfold group_field, field_location. rewrite Hfield.
  destruct fields as [|item fields]; [done|].
  apply dict_get_None_keys in Hfresh.
  remember (item :: fields) as l eqn:El. simpl.
  rewrite (dict_set_fresh name field l Hfresh). by subst l.
Qed.

Section InferenceWhole.
Context (tfm : gmap string field_class).

Lemma infer_parameters_append params : forall acc,
  NoDup (dict_keys acc ++ dict_keys params) ->
  (forall n p, (n, p) ∈ params -> n ≠ "self" ->
     is_Some (tfm !! param_annotation p)) ->
  exists d,
    for_each (AutoMD.infer_parameter tfm) params acc = Ok (acc ++ d) ∧
    dict_keys d = filter (fun n => n ≠ "self") (dict_keys params) ∧
    Forall (fun kv => location (snd kv) = None) d.
Proof.
  induction params as [|[n p] params IH]; intros acc Hnd Hmapped.
  - exists []. by rewrite app_nil_r.
  - cbn [for_each].
    assert (forall n' p', (n', p') ∈ params -> n' ≠ "self" ->
              is_Some (tfm !! param_annotation p')) as Hmapped'.
    { intros n' p' Hin. apply Hmapped. by apply list_elem_of_further. }
    unfold dict_keys in *. cbn [map fst] in *. rewrite filter_cons.
    destruct (decide (n = "self")) as [->|Hn].
    + rewrite infer_parameter_self. cbn [bind].
      destruct (IH acc) as (d & Hd & Hkeys & Hloc); [|done|].
      { apply NoDup_app in Hnd as (Hacc & Hdisj & Hparams).
        apply NoDup_cons in Hparams as [_ Hparams].
        apply NoDup_app. split_and!; [done| |done].
        intros x Hx Hx'. apply (Hdisj x Hx). by apply list_elem_of_further. }
      exists d. split_and!; [done| |done].
      by rewrite decide_False by (by intros H; apply H).
    + destruct (Hmapped n p (list_elem_of_here _ _) Hn) as [cls Hcls].
      rewrite (infer_parameter_mapped _ _ _ _ cls) by done. cbn [bind].
      assert (dict_get n acc = None) as Hfresh.
      { apply dict_get_None_keys. intros Hin.
        apply NoDup_app in Hnd as (_ & Hdisj & _).
        apply (Hdisj n Hin). apply list_elem_of_here. }
      rewrite (dict_set_fresh _ _ _ Hfresh).
      destruct (IH (acc ++ [(n, AutoMD.inferred_field cls p)]))
        as (d & Hd & Hkeys & Hloc); [|done|].
      { rewrite map_app. simpl. rewrite <- app_assoc. done. }
      exists ((n, AutoMD.inferred_field cls p) :: d). split_and!.
      * rewrite Hd. by rewrite <- app_assoc.
      * rewrite decide_True by done. simpl. by rewrite Hkeys.
      * apply Forall_cons. split; [|done]. simpl.
        by destruct (inferred_field_facts cls p) as [? _].
Qed.

End InferenceWhole.

(** X2.  The composite schema inferred from a signature has a single
    bucket, ["query"], that holds one field per parameter other than
    [self], in the order of the signature, each without a declared
    location; a signature with no such parameter gives no bucket. *)
Theorem parse_parameter_schema_inferred_query_bucket
    tfm sig path_url http_verb :
  dict_wf (parameters sig) ->
  (forall n p, (n, p) ∈ parameters sig -> n ≠ "self" ->
     is_Some (tfm !! param_annotation p)) ->
  exists d,
    dict_keys d = filter (fun n => n ≠ "self") (dict_keys (parameters sig)) ∧
    Forall (fun kv => location (snd kv) = None) d ∧
    AutoMD.parse_parameter_schema tfm None (Some sig) path_url http_verb =
    Ok {| include :=
            match d with
            | [] => []
            | _ =>
                [("query",
                  {| nested_schema :=
                       Schema_from_dict d
                         (url_name path_url +:+ str_title http_verb
                          +:+ "QuerySchema");
                     nested_location := "query";
                     nested_name := Some "query" |})]
            end |}.
Proof.
  intros Hwf Hmapped.
  destruct (infer_parameters_append tfm (parameters sig) [] Hwf Hmapped)
    as (d & Hd & Hkeys & Hloc).
  simpl in Hd. exists d. split_and!; [done..|].
  rewrite (parse_parameter_schema_inferred _ _ _ _ d Hd),
    parse_parameter_schema_declared. simpl.
  rewrite group_fields_all_query; [by destruct d | | done].
  unfold dict_wf. rewrite Hkeys. by apply NoDup_filter.
Qed.

Lemma parse_parameter_schema_inferred_query_bucket_witness :
  let tfm : gmap string field_class :=
    {[ "str" := fields_named "String" ]} in
  let sig :=
    {| parameters :=
         [("self", {| param_annotation := "inspect._empty"; param_default := None |});
          ("text", {| param_annotation := "str";
                      param_default := Some (PyStr "Hello AutoMD") |});
          ("name", {| param_annotation := "str"; param_default := None |})] |} in
  exists ps b,
    AutoMD.parse_parameter_schema tfm None (Some sig) "/status" "GET" = Ok ps ∧
    include ps = [("query", b)] ∧
    dict_keys (schema_fields (nested_schema b)) = ["text"; "name"].
Proof.
  intros tfm sig.
  destruct (parse_parameter_schema_inferred_query_bucket tfm sig "/status" "GET")
    as (d & Hkeys & _ & Hps).
  - apply (bool_decide_unpack _). vm_compute. reflexivity.
  - intros n p Hin Hn. simpl in Hin.
    apply elem_of_cons in Hin as [[= -> ->]|Hin]; [done|].
    apply elem_of_cons in Hin as [[= -> ->]|Hin];
      [unfold tfm; simpl; rewrite lookup_singleton_eq; by eexists|].
    apply list_elem_of_singleton in Hin as [= -> ->].
    unfold tfm. simpl. rewrite lookup_singleton_eq. by eexists.
  - rewrite Hps. destruct d as [|item d]; [done|].
    do 2 eexists. split_and!; [reflexivity..|]. exact Hkeys.
Defined.

(** X4.  The metadata of an inferred field holds the declared default
    under [doc_default], when there is one, then the note
    ["parameter of unspecified type"] under [description], when the
    field class is [Raw] or [Field], and nothing else: [required] and
    [allow_none] are taken by the constructor. *)
Theorem inferred_field_metadata cls param :
  metadata (AutoMD.inferred_field cls param) =
  match param_default param with
  | Some d => [("doc_default", d)]
  | None => []
  end ++
  (if bool_decide (cls ∈ [fields_Raw; fields_Field])
   then [("description", PyStr "parameter of unspecified type")]
   else []).
Proof.
  unfold AutoMD.inferred_field, AutoMD.signature_field_args.
  destruct param as [ann [d|]]; simpl;
    destruct (bool_decide (cls ∈ [fields_Raw; fields_Field]));
    try destruct (decide (d = PyNone)); reflexivity.
Qed.

(** ** Schema names *)

Lemma str_append_cons c (s1 s2 : string) :
  String c s1 +:+ s2 = String c (s1 +:+ s2).
Proof. reflexivity. Qed.

Lemma str_append_nil_r (s : string) : s +:+ "" = s.
Proof.
  induction s as [|c s IH]; [done|]. by rewrite str_append_cons, IH.
Qed.

Lemma str_append_assoc (s1 s2 s3 : string) :
  (s1 +:+ s2) +:+ s3 = s1 +:+ (s2 +:+ s3).
Proof.
  induction s1 as [|c s1 IH]; [done|]. by rewrite !str_append_cons, IH.
Qed.

Lemma str_join_app (l1 l2 : list string) :
  str_join (l1 ++ l2) = str_join l1 +:+ str_join l2.
Proof.
  induction l1 as [|s l1 IH]; simpl; [done|].
  by rewrite IH, str_append_assoc.
Qed.

Lemma str_split_from_trailing sep (s : string) : forall cur,
  str_split_from sep cur (s +:+ String sep "") = str_split_from sep cur s ++ [""].
Proof.
  induction s as [|c s IH]; intros cur.
  - simpl. by rewrite decide_True.
  - rewrite str_append_cons. cbn [str_split_from].
    destruct (decide (c = sep)); simpl; by rewrite IH.
Qed.

(** Case of a character: lowering it neither changes whether it is cased
    nor what its two cased forms are. *)
Lemma ascii_to_lower_cased (c : ascii) :
  (is_ascii_lower (ascii_to_lower c) || is_ascii_upper (ascii_to_lower c)
   = is_ascii_lower c || is_ascii_upper c) ∧
  ascii_to_lower (ascii_to_lower c) = ascii_to_lower c ∧
  ascii_to_upper (ascii_to_lower c) = ascii_to_upper (ascii_to_upper c) ∧
  (is_ascii_lower c || is_ascii_upper c = true ->
   ascii_to_upper (ascii_to_upper c) = ascii_to_upper c).
Proof. destruct c as [[] [] [] [] [] [] [] []]; vm_compute; by split_and!. Qed.

Lemma str_title_from_lower (s : string) : forall prev_cased,
  str_title_from prev_cased (str_lower s) = str_title_from prev_cased s.
Proof.
  induction s as [|c s IH]; intros prev_cased; simpl; [done|].
  destruct (ascii_to_lower_cased c) as (Hcased & Hlow & Hup & Hupup).
  rewrite Hcased.
  destruct (is_ascii_lower c || is_ascii_upper c) eqn:Hc.
  - rewrite IH, Hlow, Hup, Hupup by done. by destruct prev_cased.
  - rewrite IH. f_equal.
    unfold ascii_to_lower. apply orb_false_iff in Hc as [_ ->]. done.
Qed.

(** X5.  The name derived from a path does not see a leading or a
    trailing ["/"], and the name of a schema does not see the case of the
    verb: endpoints whose paths or verbs differ only in these get the
    same schema names. *)
Theorem schema_names_ignore_slashes_and_case path_url http_verb loc :
  url_name ("/" +:+ path_url) = url_name path_url ∧
  url_name (path_url +:+ "/") = url_name path_url ∧
  AutoMD.location_schema_name ("/" +:+ path_url +:+ "/") (str_lower http_verb) loc
    = AutoMD.location_schema_name path_url http_verb loc ∧
  AutoMD.response_schema_name ("/" +:+ path_url +:+ "/") (str_lower http_verb)
    = AutoMD.response_schema_name path_url http_verb.
Proof.
  assert (forall p, url_name ("/" +:+ p) = url_name p) as Hlead by done.
  assert (forall p, url_name (p +:+ "/") = url_name p) as Htrail.
  { intros p. unfold url_name, str_split.
    rewrite str_split_from_trailing, map_app, str_join_app. simpl.
    apply str_append_nil_r. }
  assert (str_title (str_lower http_verb) = str_title http_verb) as Hverb
    by apply str_title_from_lower.
  split_and!; [done..| |].
  - unfold AutoMD.location_schema_name. by rewrite Hlead, Htrail, Hverb.
  - unfold AutoMD.response_schema_name. by rewrite Hlead, Htrail, Hverb.
Qed.

Lemma str_contains_append c (s1 s2 : string) :
  str_contains c (s1 +:+ s2) = str_contains c s1 || str_contains c s2.
Proof.
  induction s1 as [|c' s1 IH]; [done|].
  rewrite str_append_cons. simpl. by rewrite IH, orb_assoc.
Qed.

Lemma str_split_from_parts sep (s : string) : forall cur,
  str_contains sep cur = false ->
  Forall (fun part => str_contains sep part = false) (str_split_from sep cur s).
Proof.
  induction s as [|c s IH]; intros cur Hcur; cbn [str_split_from].
  - by apply Forall_singleton.
  - destruct (decide (c = sep)) as [->|Hne].
    + apply Forall_cons. split; [done | by apply IH].
    + apply IH. rewrite str_contains_append, Hcur. simpl.
      by rewrite bool_decide_eq_false_2.
Qed.

Lemma ascii_cased_not_slash (c : ascii) :
  is_ascii_lower c || is_ascii_upper c = true ->
  ascii_to_lower c ≠ "/"%char ∧ ascii_to_upper c ≠ "/"%char.
Proof. destruct c as [[] [] [] [] [] [] [] []]; vm_compute; by split. Qed.

Lemma str_title_from_no_slash (s : string) : forall prev_cased,
  str_contains "/" s = false ->
  str_contains "/" (str_title_from prev_cased s) = false.
Proof.
  induction s as [|c s IH]; intros prev_cased; [done|].
  cbn [str_contains str_title_from].
  intros [Hc Hs]%orb_false_iff.
  destruct (is_ascii_lower c || is_ascii_upper c) eqn:Hcased;
    cbn [str_contains]; rewrite (IH _ Hs), orb_false_r.
  - destruct (ascii_cased_not_slash c Hcased) as [Hlow Hup].
    destruct prev_cased; by apply bool_decide_eq_false_2.
  - done.
Qed.

(** X6.  The name derived from a path holds no ["/"]: the separators are
    dropped by the split and title-casing brings none back. *)
Theorem url_name_no_slash path_url :
  str_contains "/" (url_name path_url) = false.
Proof.
  unfold url_name, str_split.
  pose proof (str_split_from_parts "/" path_url "" eq_refl) as Hparts.
  induction Hparts as [|part parts Hpart _ IH]; [done|].
  simpl. rewrite str_contains_append, IH, orb_false_r.
  by apply str_title_from_no_slash.
Qed.

(** ** Response resolution, errors *)

(** X7.  Two ways in which resolving a response descriptor raises.  A
    descriptor that cannot be hashed raises [TypeError] at line 127,
    whatever the table.  A hashable descriptor that is no key of the
    table and has no [_name] attribute raises when [None] is a key of the
    table: the test of line 129 reads [None] through [getattr] and
    finds it, and line 130 reads the missing attribute, so the error is
    that [AttributeError].  Lines 111-117 of [AutoAPI] are the same and
    behave the same. *)
Theorem resolve_interface_raises table d :
  (hashable d = false ->
   AutoMD.resolve_interface table d = Raise (TypeError "unhashable type")) ∧
  (forall e,
     hashable d = true -> dict_get d table = None ->
     is_Some (dict_get DNone table) -> attr_name d = Raise e ->
     AutoMD.resolve_interface table d = Raise e ∧
     exists obj, e = AttributeError obj "_name") ∧
  AutoAPI.resolve_interface table d = AutoMD.resolve_interface table d.
Proof.
  split_and!; [apply resolve_interface_unhashable | | done].
  intros e Hhash Hd [i Hnone] Hattr.
  rewrite (resolve_interface_hashable table d Hhash), Hd,
    (attr_name_raise_getattr_name d e Hattr), Hnone, Hattr.
  split; [done|].
  destruct d as [| |o]; simpl in Hattr.
  - injection Hattr as <-. by eexists.
  - injection Hattr as <-. by eexists.
  - destruct (py_name o) as [[s|]|]; try done. injection Hattr as <-. by eexists.
Qed.

Example resolve_interface_none_key :
  let value_response :=
    DObj {| py_repr := "ValueResponse"; py_hashable := true;
            py_name := None;
            py_to_schema := Some (Schema_from_dict [] "ValueResponseSchema");
            py_content_type := Some "text/plain" |} in
  AutoMD.resolve_interface [(DNone, value_response)] value_response
    = Raise (AttributeError "ValueResponse" "_name") ∧
  AutoMD.resolve_interface [] value_response = Ok value_response.
Proof. by split. Qed.

(** ** Registration, frame *)

(** X8.  A registration leaves the rest of the document as it is: the
    options, the entry of every other path or verb, and the order of the
    paths, to which a path that is new is added last. *)
Theorem register_path_frame
    tfm table responses self api_spec path_url http_verb response_code
    summary description parameter_object response_object func_signature tags
    api_spec' :
  AutoMD.register_path tfm table responses self api_spec path_url http_verb
    response_code summary description parameter_object response_object
    func_signature tags = Ok api_spec' ->
  (forall path verb,
     ¬ (path = path_url ∧ verb = str_lower http_verb) ->
     spec_operation api_spec' path verb = spec_operation api_spec path verb) ∧
  dict_keys (spec_paths api_spec') =
    (if dict_mem path_url (spec_paths api_spec) then dict_keys (spec_paths api_spec)
     else dict_keys (spec_paths api_spec) ++ [path_url]) ∧
  spec_title api_spec' = spec_title api_spec ∧
  spec_version api_spec' = spec_version api_spec ∧
  spec_openapi_version api_spec' = spec_openapi_version api_spec ∧
  spec_info api_spec' = spec_info api_spec ∧
  spec_plugins api_spec' = spec_plugins api_spec.
Proof.
  unfold AutoMD.register_path.
  destruct (AutoMD.operations _ _ _ _ _ _ _ _ _ _ _ _ _) as [ops|] eqn:Hops;
    [|done].
  apply operations_inv in Hops as (op & -> & _).
  simpl. intros [= <-]. split_and!; try done.
  - intros path verb Hne. rewrite spec_operation_APISpec_path.
    by rewrite decide_False.
  - unfold APISpec_path. simpl. apply dict_keys_set.
Qed.

Lemma register_path_frame_witness :
  let self := AutoMD.init "App" "1.0.0" "3.0.0" None None in
  exists api_spec',
    AutoMD.register_path ∅ [] {[ 200%Z := "OK" ]} self (AutoMD.start_spec self)
      "/status" "GET" 200 None None (Some (ParamDict [])) DNone None None
      = Ok api_spec' ∧
    spec_operation api_spec' "/status" "post" = None ∧
    dict_keys (spec_paths api_spec') = ["/status"] ∧
    spec_title api_spec' = "App".
Proof.
  intros self.
  destruct (AutoMD.register_path ∅ [] {[ 200%Z := "OK" ]} self
              (AutoMD.start_spec self) "/status" "GET" 200 None None
              (Some (ParamDict [])) DNone None None) as [api_spec'|e] eqn:Hreg;
    [|by vm_compute in Hreg].
  exists api_spec'. split; [reflexivity|].
  destruct (register_path_frame _ _ _ _ _ _ _ _ _ _ _ _ _ _ _ Hreg)
    as (Hframe & Hkeys & Htitle & _).
  split_and!; [|exact Hkeys|exact Htitle].
  rewrite Hframe; [reflexivity|]. by intros [_ [=]].
Defined.

Lemma APISpec_path_verbs api_spec path verb op :
  is_Some (spec_operation api_spec path verb) ->
  dict_keys <$> dict_get path (spec_paths (APISpec_path api_spec path [(verb, op)]))
    = dict_keys <$> dict_get path (spec_paths api_spec) ∧
  dict_keys (spec_paths (APISpec_path api_spec path [(verb, op)]))
    = dict_keys (spec_paths api_spec).
Proof.
  unfold spec_operation, APISpec_path, dict_update. simpl.
  rewrite dict_get_set_eq, dict_keys_set. unfold dict_mem.
  destruct (dict_get path (spec_paths api_spec)) as [ops|]; simpl;
    [|by intros [? ?]].
  intros [e He]. split; [|done].
  rewrite dict_keys_set. unfold dict_mem. by rewrite He.
Qed.

(** X9.  The verb is stored in lower case, so two verbs that differ only
    in case name one entry.  After a registration under one of them, a
    registration under the other whose operation can be built returns,
    and stores that operation under the same key: the entry there then
    has the summary, the description, the tags and the response code of
    the second call.  It adds no verb to the path and no path to the
    document, and leaves every other entry as it was. *)
Theorem register_path_verb_case
    tfm table responses self api_spec path_url http_verb http_verb'
    response_code summary description parameter_object response_object
    func_signature tags api_spec1
    response_code' summary' description' parameter_object' response_object'
    func_signature' tags' ops' :
  str_lower http_verb = str_lower http_verb' ->
  AutoMD.register_path tfm table responses self api_spec path_url http_verb
    response_code summary description parameter_object response_object
    func_signature tags = Ok api_spec1 ->
  AutoMD.operations tfm table responses self path_url http_verb'
    response_code' summary' description' parameter_object' response_object'
    func_signature' tags' = Ok ops' ->
  exists api_spec2 op',
    AutoMD.register_path tfm table responses self api_spec1 path_url http_verb'
      response_code' summary' description' parameter_object' response_object'
      func_signature' tags' = Ok api_spec2 ∧
    ops' = [(str_lower http_verb, op')] ∧
    spec_operation api_spec2 path_url (str_lower http_verb) = Some op' ∧
    op_summary op' = summary' ∧
    op_description op' = description' ∧
    op_tags op' = tags_or tags' (AutoMD.default_tag self) ∧
    dict_keys (op_responses op') = [str_of_int response_code'] ∧
    dict_keys <$> dict_get path_url (spec_paths api_spec2)
      = dict_keys <$> dict_get path_url (spec_paths api_spec1) ∧
    dict_keys (spec_paths api_spec2) = dict_keys (spec_paths api_spec1) ∧
    forall path verb,
      ¬ (path = path_url ∧ verb = str_lower http_verb) ->
      spec_operation api_spec2 path verb = spec_operation api_spec1 path verb.
Proof.
  intros Hverb Hfirst Hops'. revert Hfirst. unfold AutoMD.register_path.
  destruct (AutoMD.operations _ _ _ _ _ http_verb _ _ _ _ _ _ _)
    as [ops|] eqn:Hops; [|done].
  apply operations_inv in Hops as (op & -> & _).
  simpl. intros [= <-]. rewrite Hops'. simpl.
  apply operations_inv in Hops'
    as (op' & -> & Htags & Hcodes & Hsummary & Hdescription).
  rewrite <- Hverb.
  assert (is_Some (spec_operation
            (APISpec_path api_spec path_url [(str_lower http_verb, op)])
            path_url (str_lower http_verb))) as Hentry.
  { rewrite spec_operation_APISpec_path. by rewrite decide_True. }
  destruct (APISpec_path_verbs _ _ _ op' Hentry) as [Hverbs Hpaths].
  eexists _, op'. split_and!; try done.
  - rewrite spec_operation_APISpec_path. by rewrite decide_True.
  - intros path verb Hne. rewrite spec_operation_APISpec_path.
    by rewrite decide_False.
Qed.

Lemma register_path_verb_case_witness :
  let self := AutoMD.init "App" "1.0.0" "3.0.0" None None in
  exists api_spec1 api_spec2 op',
    AutoMD.register_path ∅ [] {[ 200%Z := "OK" ]} self (AutoMD.start_spec self)
      "/status" "GET" 200 (Some "first") None (Some (ParamDict [])) DNone None None
      = Ok api_spec1 ∧
    AutoMD.register_path ∅ [] {[ 200%Z := "OK" ]} self api_spec1
      "/status" "get" 200 (Some "second") None (Some (ParamDict [])) DNone None None
      = Ok api_spec2 ∧
    spec_operation api_spec2 "/status" "get" = Some op' ∧
    op_summary op' = Some "second" ∧
    dict_keys <$> dict_get "/status" (spec_paths api_spec2) = Some ["get"].
Proof.
  intros self.
  destruct (AutoMD.register_path ∅ [] {[ 200%Z := "OK" ]} self
              (AutoMD.start_spec self) "/status" "GET" 200 (Some "first") None
              (Some (ParamDict [])) DNone None None) as [api_spec1|e] eqn:Hreg;
    [|by vm_compute in Hreg].
  edestruct (register_path_verb_case ∅ [] {[ 200%Z := "OK" ]} self
               (AutoMD.start_spec self) "/status" "GET" "get" 200 (Some "first")
               None (Some (ParamDict [])) DNone None None api_spec1
               200 (Some "second") None (Some (ParamDict [])) DNone None None)
    as (api_spec2 & op' & Hsecond & _ & Hentry & Hsummary & _ & _ & _ & Hverbs
        & _);
    [reflexivity | exact Hreg | reflexivity |].
  exists api_spec1, api_spec2, op'.
  split_and!; [reflexivity | exact Hsecond | exact Hentry | exact Hsummary |].
  rewrite Hverbs. vm_compute in Hreg. by injection Hreg as <-.
Defined.

(** ** Introspection, as a whole *)

Lemma for_each_invariant_in {A S : Type} (I : S -> Prop)
    (body : S -> A -> result S) (xs : list A) :
  (forall s x s', x ∈ xs -> I s -> body s x = Ok s' -> I s') ->
  forall s s', I s -> for_each body xs s = Ok s' -> I s'.
Proof.
  induction xs as [|x xs IH]; intros Hbody s s' Hs; simpl.
  - by intros [= <-].
  - destruct (body s x) as [s1|e] eqn:Hstep; simpl; [|done].
    apply IH.
    + intros s2 y s3 Hy. apply Hbody. by apply list_elem_of_further.
    + apply (Hbody s x); [apply list_elem_of_here | done..].
Qed.

Lemma for_each_established {A S : Type} (P : S -> Prop)
    (body : S -> A -> result S) (xs : list A) x :
  x ∈ xs ->
  (forall s s', body s x = Ok s' -> P s') ->
  (forall s y s', P s -> body s y = Ok s' -> P s') ->
  forall s s', for_each body xs s = Ok s' -> P s'.
Proof.
  intros Hin Hx Hkeep. induction xs as [|y xs IH]; intros s s'; simpl.
  - by apply elem_of_nil in Hin.
  - destruct (body s y) as [s1|e] eqn:Hstep; simpl; [|done].
    apply elem_of_cons in Hin as [<-|Hin].
    + apply (for_each_invariant P); [done|]. by apply (Hx s).
    + by apply IH.
Qed.

Section Document.
Context (tfm : gmap string field_class).
Context (table : pydict descriptor descriptor).
Context (responses : gmap Z string).
Context (self : AutoMD.t) (app : Flask).

Local Abbreviation all_from_handlers api_spec :=
  (forall path verb op,
     spec_operation api_spec path verb = Some op ->
     from_handler (AutoMD.default_tag self) app path verb op).

Lemma document_method_from_handlers name view ms method api_spec api_spec' :
  (name, view) ∈ view_functions app -> methods view = Some ms -> method ∈ ms ->
  all_from_handlers api_spec ->
  AutoMD.document_method tfm table responses self view api_spec method
    = Ok api_spec' ->
  all_from_handlers api_spec'.
Proof.
  intros Hview Hms Hm Hall. unfold AutoMD.document_method.
  destruct (dict_get _ (view_class view)) as [h|] eqn:Hh; [|done]. simpl.
  destruct (handler_spec h) as [md|] eqn:Hmd; [|by intros [= <-]].
  destruct (AutoMD.response_200 _) as [d|]; [|done]. simpl.
  unfold AutoMD.register_path.
  destruct (AutoMD.operations _ _ _ _ _ _ _ _ _ _ _ _ _) as [ops|] eqn:Hops;
    [|done].
  apply operations_inv in Hops as (op & -> & Htags & Hkeys & Hsum & Hdesc).
  simpl. intros [= <-] path verb op'.
  rewrite spec_operation_APISpec_path. case_decide as Hkey.
  - destruct Hkey as [-> ->]. intros [= <-].
    exists view, method, h, md. split_and!; try done.
    by exists name, ms.
  - apply Hall.
Qed.

Lemma document_method_keeps_entry view method api_spec api_spec' path verb :
  is_Some (spec_operation api_spec path verb) ->
  AutoMD.document_method tfm table responses self view api_spec method
    = Ok api_spec' ->
  is_Some (spec_operation api_spec' path verb).
Proof.
  intros Hsome. unfold AutoMD.document_method.
  destruct (dict_get _ (view_class view)) as [h|]; [|done]. simpl.
  destruct (handler_spec h) as [md|]; [|by intros [= <-]].
  destruct (AutoMD.response_200 _) as [d|]; [|done]. simpl.
  unfold AutoMD.register_path.
  destruct (AutoMD.operations _ _ _ _ _ _ _ _ _ _ _ _ _) as [ops|] eqn:Hops;
    [|done].
  apply operations_inv in Hops as (op & -> & _).
  simpl. intros [= <-]. rewrite spec_operation_APISpec_path.
  by case_decide.
Qed.

Lemma document_view_keeps_entry item api_spec api_spec' path verb :
  is_Some (spec_operation api_spec path verb) ->
  AutoMD.document_view tfm table responses self api_spec item = Ok api_spec' ->
  is_Some (spec_operation api_spec' path verb).
Proof.
  intros Hsome. unfold AutoMD.document_view.
  destruct (methods (snd item)) as [ms|]; [|by intros [= <-]].
  apply (for_each_invariant
           (fun s => is_Some (spec_operation s path verb))); [|done].
  intros s m s' Hs. by apply document_method_keeps_entry.
Qed.

Lemma application_to_apispec_from_handlers api_spec :
  AutoMD.application_to_apispec tfm table responses self app = Ok api_spec ->
  all_from_handlers api_spec.
Proof.
  unfold AutoMD.application_to_apispec.
  apply (for_each_invariant_in (fun s => all_from_handlers s)); [|done].
  intros s [name view] s' Hview Hs. unfold AutoMD.document_view. simpl.
  destruct (methods view) as [ms|] eqn:Hms; [|by intros [= <-]].
  apply (for_each_invariant_in (fun s => all_from_handlers s)); [|done].
  intros s1 m s2 Hm. by apply (document_method_from_handlers name view ms).
Qed.

End Document.

(** X10.  Every entry of a document that [AutoMD.application_to_apispec]
    returns stems from a handler of the application that carries
    endpoint metadata: the document holds nothing for views without
    [methods], for handlers without metadata, or under any other path,
    verb or status code. *)
Theorem application_to_apispec_entries_from_handlers
    tfm table responses self app api_spec path verb op :
  AutoMD.application_to_apispec tfm table responses self app = Ok api_spec ->
  spec_operation api_spec path verb = Some op ->
  from_handler (AutoMD.default_tag self) app path verb op.
Proof.
  intros Hbuild Hop.
  by apply (application_to_apispec_from_handlers _ _ _ _ _ _ Hbuild).
Qed.

(** X11.  When [AutoMD.application_to_apispec] returns, the document has
    an entry for every handler that carries endpoint metadata, at the URL
    of its view and its method in lower case: a later registration may
    replace an entry, none removes one. *)
Theorem application_to_apispec_documents_every_handler
    tfm table responses self app api_spec view method h md :
  AutoMD.application_to_apispec tfm table responses self app = Ok api_spec ->
  app_handler app view method h -> handler_spec h = Some md ->
  is_Some (spec_operation api_spec (view_url view) (str_lower method)).
Proof.
  intros Hbuild (name & ms & Hview & Hms & Hm & Hh) Hmd.
  revert Hbuild. unfold AutoMD.application_to_apispec.
  set (P := fun s : APISpec =>
              is_Some (spec_operation s (view_url view) (str_lower method))).
  apply (for_each_established P _ _ (name, view) Hview).
  - intros s s'. unfold AutoMD.document_view. simpl. rewrite Hms.
    apply (for_each_established P _ _ method Hm).
    + intros s1 s2.
      rewrite (automd_document_method_handler _ _ _ _ _ _ _ h md Hh Hmd).
      destruct (AutoMD.response_200 _) as [d|]; [|done]. simpl.
      unfold AutoMD.register_path.
      destruct (AutoMD.operations _ _ _ _ _ _ _ _ _ _ _ _ _) as [ops|] eqn:Hops;
        [|done].
      apply operations_inv in Hops as (op & -> & _).
      simpl. intros [= <-]. unfold P. rewrite spec_operation_APISpec_path.
      by rewrite decide_True.
    + intros s1 m s2 Hs. by apply document_method_keeps_entry.
  - intros s item s' Hs. by apply document_view_keeps_entry.
Qed.

(** X12.  Documentation is opt-in: a build that returns, over an
    application none of whose handlers carries endpoint metadata, returns
    the fresh document of [start_spec], with an empty path table,
    whatever the views are. *)
Theorem application_to_apispec_unmarked
    tfm table responses self app api_spec :
  AutoMD.application_to_apispec tfm table responses self app = Ok api_spec ->
  (forall view method h, app_handler app view method h -> handler_spec h = None) ->
  api_spec = AutoMD.start_spec self ∧ spec_paths api_spec = [].
Proof.
  intros Hbuild Hunmarked.
  assert (api_spec = AutoMD.start_spec self) as ->; [|done].
  revert Hbuild. unfold AutoMD.application_to_apispec.
  apply (for_each_invariant_in (fun s => s = AutoMD.start_spec self)); [|done].
  intros s [name view] s' Hview ->. unfold AutoMD.document_view. simpl.
  destruct (methods view) as [ms|] eqn:Hms; [|by intros [= <-]].
  apply (for_each_invariant_in (fun s => s = AutoMD.start_spec self)); [|done].
  intros s1 m s2 Hm ->. unfold AutoMD.document_method.
  destruct (dict_get (str_lower m) (view_class view)) as [h|] eqn:Hh; [|done].
  simpl. rewrite (Hunmarked view m h); [by intros [= <-]|].
  by exists name, ms.
Qed.

Lemma application_to_apispec_entries_from_handlers_witness :
  let self := AutoMD.init "AutoMD Test App" "1.0.0" "3.0.0" None None in
  let md :=
    {| md_response_schemas := Some [("200", DNone)];
       md_parameter_schema := Some (ParamDict []);
       md_func_signature := None;
       md_summary := Some "Status Endpoint";
       md_description := None;
       md_tags := None |} in
  let app :=
    {| view_functions :=
         [("status", {| methods := Some ["GET"]; view_url := "/status";
                        view_class := [("get", {| handler_spec := Some md |})] |})] |} in
  exists api_spec op,
    AutoMD.application_to_apispec ∅ [] {[ 200%Z := "OK" ]} self app = Ok api_spec ∧
    spec_operation api_spec "/status" "get" = Some op ∧
    from_handler (AutoMD.default_tag self) app "/status" "get" op.
Proof.
  intros self md app. do 2 eexists. split; [reflexivity|]. split; [reflexivity|].
  eapply (application_to_apispec_entries_from_handlers
            ∅ [] {[ 200%Z := "OK" ]} self app); reflexivity.
Defined.

Lemma application_to_apispec_documents_every_handler_witness :
  let self := AutoMD.init "AutoMD Test App" "1.0.0" "3.0.0" None None in
  let md :=
    {| md_response_schemas := Some [("200", DNone)];
       md_parameter_schema := Some (ParamDict []);
       md_func_signature := None;
       md_summary := Some "Status Endpoint";
       md_description := None;
       md_tags := None |} in
  let view :=
    {| methods := Some ["GET"; "POST"]; view_url := "/status";
       view_class := [("get", {| handler_spec := Some md |});
                      ("post", {| handler_spec := None |})] |} in
  let app := {| view_functions := [("status", view)] |} in
  exists api_spec,
    AutoMD.application_to_apispec ∅ [] {[ 200%Z := "OK" ]} self app = Ok api_spec ∧
    is_Some (spec_operation api_spec "/status" "get").
Proof.
  intros self md view app. eexists. split; [reflexivity|].
  apply (application_to_apispec_documents_every_handler
           ∅ [] {[ 200%Z := "OK" ]} self app _ view "GET"
           {| handler_spec := Some md |} md); [reflexivity| |reflexivity].
  exists "status", ["GET"; "POST"].
  split_and!; [apply list_elem_of_here | reflexivity | apply list_elem_of_here
              | reflexivity].
Defined.

Lemma application_to_apispec_unmarked_witness :
  let self := AutoMD.init "AutoMD Test App" "1.0.0" "3.0.0" None None in
  let app :=
    {| view_functions :=
         [("static", {| methods := None; view_url := "/static"; view_class := [] |});
          ("minimal", {| methods := Some ["POST"]; view_url := "/minimal";
                         view_class := [("post", {| handler_spec := None |})] |})] |} in
  exists api_spec,
    AutoMD.application_to_apispec ∅ [] {[ 200%Z := "OK" ]} self app = Ok api_spec ∧
    api_spec = AutoMD.start_spec self ∧
    spec_paths api_spec = [].
Proof.
  intros self app. eexists. split; [reflexivity|].
  apply (application_to_apispec_unmarked ∅ [] {[ 200%Z := "OK" ]} self app);
    [reflexivity|].
  intros view method h (name & ms & Hview & Hms & Hm & Hh). simpl in Hview.
  apply elem_of_cons in Hview as [[= -> ->]|Hview]; [done|].
  apply list_elem_of_singleton in Hview as [= -> ->].
  injection Hms as <-. apply list_elem_of_singleton in Hm as ->.
  by injection Hh as <-.
Defined.

(** ** The two classes side by side *)

Section Variants.
Context (table : pydict descriptor descriptor).
Context (responses : gmap Z string).

(** What [AutoAPI.register_path] builds once the parameter object and
    the interface are known. *)
Lemma autoapi_operations_declared self path_url http_verb response_code
    summary description p response_object tags :
  AutoAPI.operations table responses self path_url http_verb response_code
    summary description (Some p) response_object tags =
  let* response_interface := AutoAPI.resolve_interface table response_object in
  let* response_schema := to_schema response_interface in
  let* phrase := AutoAPI.status_phrase responses response_code in
  Ok [(str_lower http_verb,
       {| op_responses :=
            [(str_of_int response_code,
              {| resp_description := phrase;
                 resp_content :=
                   [(match content_type response_interface with
                     | Ok ct => ct
                     | Raise _ => default_content_type
                     end, response_schema)] |})];
          op_parameters :=
            [{| entry_in := "query";
                entry_name := None;
                entry_schema :=
                  {| include :=
                       map (fun kv =>
                              (fst kv,
                               {| nested_schema := AutoAPI.dict2schema (snd kv);
                                  nested_location := fst kv;
                                  nested_name := None |}))
                           (group_fields (parameter_fields p)) |} |}];
          op_summary := summary;
          op_description := description;
          op_tags := tags_or tags (AutoAPI.default_tag self) |})].
Proof.
  unfold AutoAPI.operations. simpl.
  pose proof (group_fields_wf (parameter_fields p)) as Hwf.
  rewrite (fold_dict_set_fresh _ (fun kv => AutoAPI.dict2schema (snd kv)));
    [|by intros acc [loc argmap] | done].
  simpl. rewrite dict_comprehension_wf
    by (unfold dict_wf, dict_keys; by rewrite map_map).
  rewrite map_map. simpl.
  destruct (AutoAPI.resolve_interface table response_object) as [i|]; [|done].
  simpl. destruct i as [|s|o]; simpl; try done.
  destruct (py_to_schema o); simpl; [|done]. by destruct (py_content_type o).
Qed.

End Variants.

(** X13.  On a declared parameter object the two classes, built from
    the same arguments and reading the same tables, build the same
    documentation wherever both return.  Their operations sit under the
    same verb and have the same responses (status code, phrase, content
    type, and a schema of the same name and fields), summary,
    description and tags, and one parameter entry each, [in] the query,
    whose schemas hold the same fields in the same buckets.  They differ
    in three places: the entry of [AutoMD] has the [name] ["test"] and
    that of [AutoAPI] none; the nested field of a bucket has its
    location as [name] in [AutoMD] and no [name] in [AutoAPI]; and the
    schema class of a bucket is named after the path, the verb and the
    location in [AutoMD], and by [dict2schema] in [AutoAPI]. *)
Theorem variants_agree_on_declared
    tfm table responses title app_version openapi_version info default_tag
    path_url http_verb response_code summary description p response_object
    func_signature tags ops ops' :
  AutoMD.operations tfm table responses
    (AutoMD.init title app_version openapi_version info default_tag)
    path_url http_verb response_code summary description (Some p)
    response_object func_signature tags = Ok ops ->
  AutoAPI.operations table responses
    (AutoAPI.init title app_version openapi_version info default_tag)
    path_url http_verb response_code summary description (Some p)
    response_object tags = Ok ops' ->
  exists op op' entry entry',
    ops = [(str_lower http_verb, op)] ∧ ops' = [(str_lower http_verb, op')] ∧
    op_responses op = op_responses op' ∧
    op_summary op = op_summary op' ∧
    op_description op = op_description op' ∧
    op_tags op = op_tags op' ∧
    op_parameters op = [entry] ∧ op_parameters op' = [entry'] ∧
    entry_in entry = "query" ∧ entry_in entry' = "query" ∧
    bucket_contents (entry_schema entry) = bucket_contents (entry_schema entry') ∧
    entry_name entry = Some "test" ∧ entry_name entry' = None ∧
    Forall (fun kv =>
              nested_location (snd kv) = fst kv ∧
              nested_name (snd kv) = Some (fst kv) ∧
              schema_name (nested_schema (snd kv))
                = AutoMD.location_schema_name path_url http_verb (fst kv))
           (include (entry_schema entry)) ∧
    Forall (fun kv =>
              nested_location (snd kv) = fst kv ∧
              nested_name (snd kv) = None ∧
              schema_name (nested_schema (snd kv))
                = schema_name (AutoAPI.dict2schema []))
           (include (entry_schema entry')).
Proof.
  rewrite autoapi_operations_declared.
  unfold AutoMD.operations. rewrite parse_parameter_schema_declared. simpl.
  change (AutoAPI.resolve_interface table response_object)
    with (AutoMD.resolve_interface table response_object).
  change (AutoAPI.status_phrase responses response_code)
    with (AutoMD.status_phrase responses response_code).
  destruct (AutoMD.resolve_interface table response_object) as [i|e0] eqn:Hi;
    [|done].
  rewrite (parse_response_schema_resolved _ _ _ _ i Hi). simpl.
  destruct i as [|s|o]; simpl; [by intros _ [=] | by intros [=] |].
  destruct (py_to_schema o) as [rs|]; simpl; [|done].
  destruct (AutoMD.status_phrase responses response_code) as [phrase|];
    simpl; [|done].
  intros [= <-] [= <-]. do 4 eexists. split_and!; try reflexivity; simpl.
  - unfold bucket_contents, nested_buckets. simpl. by rewrite !map_map.
  - unfold nested_buckets.
    induction (group_fields (parameter_fields p)) as [|kv l IH]; simpl;
      by constructor.
  - induction (group_fields (parameter_fields p)) as [|kv l IH]; simpl;
      by constructor.
Qed.

Lemma variants_agree_on_declared_witness :
  let value_response :=
    DObj {| py_repr := "ValueResponse"; py_hashable := true;
            py_name := None;
            py_to_schema := Some (Schema_from_dict [] "ValueResponseSchema");
            py_content_type := Some "application/json" |} in
  let p := ParamDict [("text", mkField (fields_named "String") false false None [])] in
  exists op op',
    AutoMD.operations ∅ [] {[ 200%Z := "OK" ]}
      (AutoMD.init "App" "1.0.0" "3.0.0" None None)
      "/status" "GET" 200 None None (Some p) value_response None None
      = Ok [("get", op)] ∧
    AutoAPI.operations [] {[ 200%Z := "OK" ]}
      (AutoAPI.init "App" "1.0.0" "3.0.0" None None)
      "/status" "GET" 200 None None (Some p) value_response None
      = Ok [("get", op')] ∧
    op_responses op = op_responses op' ∧
    (entry_name <$> op_parameters op) = [Some "test"] ∧
    (entry_name <$> op_parameters op') = [None].
Proof.
  intros value_response p.
  edestruct (variants_agree_on_declared ∅ [] {[ 200%Z := "OK" ]}
               "App" "1.0.0" "3.0.0" None None "/status" "GET" 200 None None p
               value_response None None)
    as (op & op' & entry & entry' & Hop & Hop' & Hresp & _ & _ & _ & Hentry
        & Hentry' & _ & _ & _ & Hname & Hname' & _); [reflexivity..|].
  exists op, op'. rewrite Hentry, Hentry'. simpl. rewrite Hname, Hname'.
  injection Hop as <-. injection Hop' as <-. by split_and!.
Defined.

Section DocumentAPI.
Context (table : pydict descriptor descriptor).
Context (responses : gmap Z string).
Context (self : AutoAPI.t) (app : Flask).

Lemma autoapi_operations_inv_full path_url http_verb response_code summary
    description parameter_object response_object tags ops :
  AutoAPI.operations table responses self path_url http_verb response_code
    summary description parameter_object response_object tags = Ok ops ->
  exists op,
    ops = [(str_lower http_verb, op)] ∧
    op_tags op = tags_or tags (AutoAPI.default_tag self) ∧
    dict_keys (op_responses op) = [str_of_int response_code] ∧
    op_summary op = summary ∧ op_description op = description.
Proof.
  destruct parameter_object as [p|]; [|done].
  rewrite autoapi_operations_declared.
  destruct (AutoAPI.resolve_interface _ _) as [i|]; [|done]. simpl.
  destruct (to_schema i) as [rs|]; [|done]. simpl.
  destruct (AutoAPI.status_phrase _ _) as [phrase|]; [|done]. simpl.
  intros [= <-]. eexists. by split_and!.
Qed.

Local Abbreviation all_from_handlers api_spec :=
  (forall path verb op,
     spec_operation api_spec path verb = Some op ->
     from_handler (AutoAPI.default_tag self) app path verb op).

Lemma autoapi_document_method_from_handlers
    name view ms method api_spec api_spec' :
  (name, view) ∈ view_functions app -> methods view = Some ms -> method ∈ ms ->
  all_from_handlers api_spec ->
  AutoAPI.document_method table responses self view api_spec method
    = Ok api_spec' ->
  all_from_handlers api_spec'.
Proof.
  intros Hview Hms Hm Hall. unfold AutoAPI.document_method.
  destruct (dict_get _ (view_class view)) as [h|] eqn:Hh; [|done]. simpl.
  destruct (handler_spec h) as [md|] eqn:Hmd; [|by intros [= <-]].
  destruct (AutoAPI.response_200 _) as [d|]; [|done]. simpl.
  unfold AutoAPI.register_path.
  destruct (AutoAPI.operations _ _ _ _ _ _ _ _ _ _ _) as [ops|] eqn:Hops;
    [|done].
  apply autoapi_operations_inv_full in Hops
    as (op & -> & Htags & Hkeys & Hsum & Hdesc).
  simpl. intros [= <-] path verb op'.
  rewrite spec_operation_APISpec_path. case_decide as Hkey.
  - destruct Hkey as [-> ->]. intros [= <-].
    exists view, method, h, md. split_and!; try done.
    by exists name, ms.
  - apply Hall.
Qed.

Lemma autoapi_application_from_handlers api_spec :
  AutoAPI.application_to_apispec table responses self app = Ok api_spec ->
  all_from_handlers api_spec.
Proof.
  unfold AutoAPI.application_to_apispec.
  apply (for_each_invariant_in (fun s => all_from_handlers s)); [|done].
  intros s [name view] s' Hview Hs. unfold AutoAPI.document_view. simpl.
  destruct (methods view) as [ms|] eqn:Hms; [|by intros [= <-]].
  apply (for_each_invariant_in (fun s => all_from_handlers s)); [|done].
  intros s1 m s2 Hm.
  by apply (autoapi_document_method_from_handlers name view ms).
Qed.

End DocumentAPI.

(** X14.  Every entry of a document that [AutoAPI.application_to_apispec]
    returns stems from a handler of the application that carries
    endpoint metadata, and has at least one tag. *)
Theorem autoapi_entries_from_handlers
    table responses self app api_spec path verb op :
  AutoAPI.application_to_apispec table responses self app = Ok api_spec ->
  spec_operation api_spec path verb = Some op ->
  from_handler (AutoAPI.default_tag self) app path verb op ∧ op_tags op ≠ [].
Proof.
  intros Hbuild Hop.
  pose proof (autoapi_application_from_handlers _ _ _ _ _ Hbuild _ _ _ Hop)
    as Hfrom.
  split; [done|].
  destruct Hfrom as (view & method & h & md & _ & _ & _ & _ & _ & _ & _ & ->).
  apply tags_or_nonempty.
Qed.

Lemma autoapi_entries_from_handlers_witness :
  let self := AutoAPI.init "AutoAPI Test App" "1.0.0" "3.0.0" None None in
  let value_response :=
    DObj {| py_repr := "ValueResponse"; py_hashable := true;
            py_name := None;
            py_to_schema := Some (Schema_from_dict [] "ValueResponseSchema");
            py_content_type := Some "application/json" |} in
  let md :=
    {| md_response_schemas := Some [("200", value_response)];
       md_parameter_schema := Some (ParamDict []);
       md_func_signature := None;
       md_summary := Some "Status Endpoint";
       md_description := None;
       md_tags := None |} in
  let app :=
    {| view_functions :=
         [("status", {| methods := Some ["GET"]; view_url := "/status";
                        view_class := [("get", {| handler_spec := Some md |})] |})] |} in
  exists api_spec op,
    AutoAPI.application_to_apispec [] {[ 200%Z := "OK" ]} self app = Ok api_spec ∧
    spec_operation api_spec "/status" "get" = Some op ∧
    op_tags op ≠ [].
Proof.
  intros self value_response md app. do 2 eexists.
  split; [reflexivity|]. split; [reflexivity|].
  eapply (autoapi_entries_from_handlers [] {[ 200%Z := "OK" ]} self app _
            "/status" "get"); reflexivity.
Defined.

(** ** The test application *)

(** X15.  [Status.post] answers with the JSON text only when a query text
    is passed as well: without a query text the answer is the bare
    status line whatever the JSON text is; with one, a JSON text that is
    not empty replaces it, and without a JSON text the answer is that of
    [Status.get].  An empty query text is answered like the default
    ["Hello AutoMD"]. *)
Theorem Status_post_reply text json_text :
  Status.post None json_text = [("response", "status check OK")] ∧
  (forall t, json_text ≠ None -> json_text ≠ Some "" ->
     Status.post (Some t) json_text
     = [("response", "status check OK: " +:+ default "" json_text)]) ∧
  (json_text = None ∨ json_text = Some "" ->
     Status.post text json_text = [("response", Status.get text)]) ∧
  Status.get (Some "") = "status check OK: Hello AutoMD" ∧
  Status.get None = "status check OK".
Proof.
  split_and!; try done.
  - intros t Hnone Hempty. destruct json_text as [j|]; [|done].
    unfold Status.post, str_or. simpl.
    destruct (String.eqb_spec j ""); [by subst|done].
  - intros [-> | ->]; by destruct text.
Qed.

(** X16.  Fields that declare no location of their own are all
    documented in the one bucket ["query"], in the order given: the
    location a handler passes to [use_kwargs] instead is not seen.  So
    it is for [Status.post], whose [json_text] is read from the JSON
    body. *)
Theorem parse_parameter_schema_no_location
    tfm (p : parameter_object) sig path_url http_verb :
  dict_wf (parameter_fields p) ->
  Forall (fun kv => location (snd kv) = None) (parameter_fields p) ->
  parameter_fields p ≠ [] ->
  AutoMD.parse_parameter_schema tfm (Some p) sig path_url http_verb =
  Ok {| include :=
          [("query",
            {| nested_schema :=
                 Schema_from_dict (parameter_fields p)
                   (url_name path_url +:+ str_title http_verb +:+ "QuerySchema");
               nested_location := "query";
               nested_name := Some "query" |})] |}.
Proof.
  intros Hwf Hloc Hne.
  rewrite parse_parameter_schema_declared, group_fields_all_query by done.
  by destruct (parameter_fields p).
Qed.

Lemma parse_parameter_schema_no_location_witness :
  AutoMD.parse_parameter_schema ∅ (Some (ParamDict Status.post_parameter_schema))
    None "/status" "POST" =
  Ok {| include :=
          [("query",
            {| nested_schema :=
                 Schema_from_dict
                   (Status.post_query_arguments ++ Status.post_json_arguments)
                   "StatusPostQuerySchema";
               nested_location := "query";
               nested_name := Some "query" |})] |}.
Proof.
  apply (parse_parameter_schema_no_location ∅
           (ParamDict Status.post_parameter_schema) None "/status" "POST").
  - apply (bool_decide_unpack _). vm_compute. reflexivity.
  - repeat constructor.
  - done.
Defined.
